(** * Eq_SciPy_ARM: octave band planner and Q31 coefficient quantizer

    A shallow embedding of [Eq_SciPy_ARM.py].

    Numbers.  Python floats and numpy [float64] values are modelled by exact
    numbers: real numbers ([R]) where the program takes logarithms and powers
    (the band planner), rationals ([Q]) where it only scales by powers of two
    and rounds (the quantizer and the Q31 signal scaling).  Rounding error of
    binary64 and its silent overflow to infinity are not modelled.  The
    non-finite values numpy produces for [log10] of a non-positive number
    are kept ([npfloat]).  Whether a number is a Python int or a float is kept
    where it decides an exception ([pynumber]), and the 32-bit integers that
    come back from the Q31 engine wrap around as numpy's do.

    External libraries.  [scipy], [librosa] and [cmsisdsp] are not part of the
    program: the filter designer, the float filter and the Q31 biquad engine
    are parameters of the definitions that call them, and what the file
    reader returns is an argument of [load_input_signal]. *)

From Stdlib Require Import ZArith QArith Qround Qabs Reals List Bool Lia Lqa Lra.
Import ListNotations.

(** ** Module parameters of the program (lines 22-30) *)

Definition BASE_FREQUENCY : Z := 100.
Definition NUM_BANDS : Z := 6.
Definition FS : Z := 16000.
Definition POSTSHIFT : Z := 4.
Definition NUMSTAGES : Z := 3.

(** ** Python run-time behaviour *)

Module Py.

(** The built-in exceptions the modelled statements can raise: list
    indexing out of range, [np.reshape] to a wrong size (or a value a
    library function rejects), arithmetic on [None] or a numpy function on
    an int numpy cannot hold, and the conversion of too large an int to a
    float. *)
Inductive exception : Type :=
| IndexError
| ValueError
| TypeError
| OverflowError.

Inductive outcome (A : Type) : Type :=
| Returns (a : A)
| Raises (e : exception).
Arguments Returns {A} a.
Arguments Raises {A} e.

Definition bind {A B : Type} (m : outcome A) (k : A -> outcome B) : outcome B :=
  match m with
  | Returns a => k a
  | Raises e => Raises e
  end.

(** [range(lo, hi)] *)
Definition range (lo hi : Z) : list Z :=
  map (fun k => (lo + Z.of_nat k)%Z) (seq 0 (Z.to_nat (hi - lo))).

(** [xs[i]]: negative indices count from the end, anything outside the
    list raises [IndexError]. *)
Definition index {A : Type} (xs : list A) (i : Z) : outcome A :=
  let n := Z.of_nat (length xs) in
  let j := (if i <? 0 then i + n else i)%Z in
  if ((0 <=? j) && (j <? n))%Z
  then match nth_error xs (Z.to_nat j) with
       | Some x => Returns x
       | None => Raises IndexError
       end
  else Raises IndexError.

(** [xs[i] = v] for an index known to be inside the list. *)
Fixpoint setitem {A : Type} (xs : list A) (i : nat) (v : A) : list A :=
  match xs, i with
  | [], _ => []
  | _ :: tl, O => v :: tl
  | x :: tl, S j => x :: setitem tl j v
  end.

(** [[f(a) for a in xs]]: the first exception ends the comprehension. *)
Fixpoint comprehension {A B : Type} (f : A -> outcome B) (xs : list A)
  : outcome (list B) :=
  match xs with
  | [] => Returns []
  | a :: rest =>
      match f a with
      | Returns b =>
          match comprehension f rest with
          | Returns bs => Returns (b :: bs)
          | Raises e => Raises e
          end
      | Raises e => Raises e
      end
  end.

End Py.

Notation "x <- m ;; k" := (Py.bind m (fun x => k))
  (at level 61, m at next level, right associativity).
Notation "' pat <- m ;; k" := (Py.bind m (fun x => match x with pat => k end))
  (at level 61, pat pattern, m at next level, right associativity).

(** ** numpy float64 values, idealised *)

Inductive npfloat : Type :=
| Fin (r : R)
| PosInf
| NegInf
| NaN.

(** A Python number: an int of any size, or a float. *)
Inductive pynumber : Type :=
| PyInt (z : Z)
| PyFloat (x : R).

Definition value (c : pynumber) : R :=
  match c with
  | PyInt z => IZR z
  | PyFloat x => x
  end.

Module Np.
Local Open Scope R_scope.

(** [np.log10]: [-inf] at zero, [nan] below (numpy warns, it does not
    raise). *)
Definition log10 (x : R) : npfloat :=
  if Rlt_dec 0 x then Fin (Rlog 10 x)
  else if Req_dec_T x 0 then NegInf
  else NaN.

Definition sub (a b : npfloat) : npfloat :=
  match a, b with
  | NaN, _ | _, NaN => NaN
  | Fin x, Fin y => Fin (x - y)
  | PosInf, PosInf | NegInf, NegInf => NaN
  | PosInf, _ | _, NegInf => PosInf
  | NegInf, _ | _, PosInf => NegInf
  end.

Definition add (a b : npfloat) : npfloat :=
  match a, b with
  | NaN, _ | _, NaN => NaN
  | Fin x, Fin y => Fin (x + y)
  | PosInf, NegInf | NegInf, PosInf => NaN
  | PosInf, _ | _, PosInf => PosInf
  | NegInf, _ | _, NegInf => NegInf
  end.

(** [a / 2] *)
Definition half (a : npfloat) : npfloat :=
  match a with
  | Fin x => Fin (x / 2)
  | other => other
  end.

(** [a / d] for a Python float [d]; numpy scalars divide by zero into
    infinities and [nan]. *)
Definition div (a : npfloat) (d : R) : npfloat :=
  match a with
  | Fin x =>
      if Req_dec_T d 0
      then (if Rlt_dec 0 x then PosInf
            else if Rlt_dec x 0 then NegInf else NaN)
      else Fin (x / d)
  | PosInf => if Rlt_dec d 0 then NegInf else PosInf
  | NegInf => if Rlt_dec d 0 then PosInf else NegInf
  | NaN => NaN
  end.

(** [10 ** a] *)
Definition pow10 (a : npfloat) : npfloat :=
  match a with
  | Fin x => Fin (Rpower 10 x)
  | PosInf => PosInf
  | NegInf => Fin 0
  | NaN => NaN
  end.

End Np.

(** ** The processor object (lines 44-55) *)

(** One second-order section as scipy lays it out: [b0 b1 b2 a0 a1 a2]. *)
Definition sos_row : Type := list Q.
Definition sos_array : Type := list sos_row.

Record SignalProcessor : Type := mkSignalProcessor {
  fs : Z;
  base_frequency : Z;
  num_bands : Z;
  input_signal : option (list Q);
  sos_list : list sos_array;
  frequencies : list R;
  edges : list npfloat;
  coefs : list Z
}.

(** [SignalProcessor.__init__] *)
Definition init : SignalProcessor :=
  {| fs := FS;
     base_frequency := BASE_FREQUENCY;
     num_bands := NUM_BANDS + 1;
     input_signal := None;
     sos_list := [];
     frequencies := [];
     edges := [];
     coefs := [] |}.

Definition with_input_signal (self : SignalProcessor) (x : option (list Q)) : SignalProcessor :=
  {| fs := fs self;
     base_frequency := base_frequency self;
     num_bands := num_bands self;
     input_signal := x;
     sos_list := sos_list self;
     frequencies := frequencies self;
     edges := edges self;
     coefs := coefs self |}.

Definition with_sos_list (self : SignalProcessor) (l : list sos_array) : SignalProcessor :=
  {| fs := fs self;
     base_frequency := base_frequency self;
     num_bands := num_bands self;
     input_signal := input_signal self;
     sos_list := l;
     frequencies := frequencies self;
     edges := edges self;
     coefs := coefs self |}.

Definition with_coefs (self : SignalProcessor) (c : list Z) : SignalProcessor :=
  {| fs := fs self;
     base_frequency := base_frequency self;
     num_bands := num_bands self;
     input_signal := input_signal self;
     sos_list := sos_list self;
     frequencies := frequencies self;
     edges := edges self;
     coefs := c |}.

Definition with_plan (self : SignalProcessor) (f : list R) (e : list npfloat) : SignalProcessor :=
  {| fs := fs self;
     base_frequency := base_frequency self;
     num_bands := num_bands self;
     input_signal := input_signal self;
     sos_list := sos_list self;
     frequencies := f;
     edges := e;
     coefs := coefs self |}.

(** ** Band planner: [calculate_centers] (lines 114-136) *)

Module Planner.
Local Open Scope R_scope.

(** Line 121: [10**(log10(lo) + ((log10(hi) - log10(lo)) / 2))]. *)
Definition edge_between (lo hi : R) : npfloat :=
  Np.pow10 (Np.add (Np.log10 lo)
                   (Np.half (Np.sub (Np.log10 hi) (Np.log10 lo)))).

(** Line 117, as values. *)
Definition octave_centers (base : R) (n : Z) : list R :=
  map (fun i => base * powerRZ 2 i) (Py.range (-1) n).

(** Lines 118-121, as values: the list of zeros, overwritten entry by
    entry. *)
Definition fill_edges (frequencies : list R) : list npfloat :=
  fold_left
    (fun edges i =>
       Py.setitem edges i
         (edge_between (nth i frequencies 0) (nth (S i) frequencies 0)))
    (seq 0 (length frequencies - 1))
    (repeat (Fin 0) (length frequencies - 1)).

(** The values the method computes and returns, when it returns. *)
Definition centers_and_edges (base : R) (n : Z) : list R * list npfloat :=
  let frequencies := octave_centers base n in
  (frequencies, fill_edges frequencies).

(** Python's conversion of an int to a float: an int that rounds to
    [2^1024] or beyond raises [OverflowError]. *)
Definition float_of_int (z : Z) : Py.outcome R :=
  if (Z.abs z <? 2 ^ 1024 - 2 ^ 970)%Z
  then Py.Returns (IZR z)
  else Py.Raises Py.OverflowError.

(** [base_frequency * 2**i] of line 117.  [2**i] is a float for a negative
    [i] and an int otherwise; an int that meets a float is converted
    first. *)
Definition center (base : pynumber) (i : Z) : Py.outcome pynumber :=
  match base with
  | PyInt z =>
      if (i <? 0)%Z
      then x <- float_of_int z ;; Py.Returns (PyFloat (x * powerRZ 2 i))
      else Py.Returns (PyInt (z * 2 ^ i))
  | PyFloat x =>
      if (i <? 0)%Z
      then Py.Returns (PyFloat (x * powerRZ 2 i))
      else p <- float_of_int (2 ^ i) ;; Py.Returns (PyFloat (x * p))
  end.

(** [np.log10] of a center: numpy takes a float, and an int from [-2^63]
    up to [2^64 - 1]; any other int raises [TypeError]. *)
Definition log10 (c : pynumber) : Py.outcome npfloat :=
  match c with
  | PyFloat x => Py.Returns (Np.log10 x)
  | PyInt z =>
      if ((- 2 ^ 63 <=? z) && (z <? 2 ^ 64))%Z
      then Py.Returns (Np.log10 (IZR z))
      else Py.Raises Py.TypeError
  end.

(** The right-hand side of line 121, its three logarithms from left to
    right. *)
Definition edge (lo hi : pynumber) : Py.outcome npfloat :=
  a <- log10 lo ;;
  b <- log10 hi ;;
  a' <- log10 lo ;;
  Py.Returns (Np.pow10 (Np.add a (Np.half (Np.sub b a')))).

(** The loop of lines 120-121 over the indices still to do. *)
Fixpoint edges_loop (frequencies : list pynumber) (todo : list nat)
  (edges : list npfloat) : Py.outcome (list npfloat) :=
  match todo with
  | [] => Py.Returns edges
  | i :: rest =>
      e <- edge (nth i frequencies (PyFloat 0))
                (nth (S i) frequencies (PyFloat 0)) ;;
      edges_loop frequencies rest (Py.setitem edges i e)
  end.

(** The method: it stores both lists in the object and returns them.  The
    object and the result hold the numbers by their values.  The printing
    between line 121 and line 133 formats numbers that line 121 has already
    accepted and has no effect on either list. *)
Definition calculate_centers (self : SignalProcessor) (base : pynumber) (n : Z)
  : Py.outcome (SignalProcessor * (list R * list npfloat)) :=
  frequencies <- Py.comprehension (center base) (Py.range (-1) n) ;;
  let edges := repeat (Fin 0) (length frequencies - 1) in
  edges <- edges_loop frequencies (seq 0 (length frequencies - 1)) edges ;;
  Py.Returns (with_plan self (map value frequencies) edges,
              (map value frequencies, edges)).

(** The numbers of a plan stay inside what Python and numpy convert: with
    a float base no power [2**i] beyond [2**1023], with an int base every
    int center from [-2^63] up to [2^64 - 1]. *)
Definition within_range (base : pynumber) (n : Z) : Prop :=
  match base with
  | PyFloat _ => (n <= 1024)%Z
  | PyInt z =>
      (- 2 ^ 63 <= z * 2 ^ Z.max 0 (n - 1))%Z /\
      (z * 2 ^ Z.max 0 (n - 1) < 2 ^ 64)%Z
  end.

(** Line 179 of [butter_bandpass]: [nyquist = 0.5 * fs]. *)
Definition nyquist (fs : Z) : R := 0.5 * IZR fs.

End Planner.


(** ** Q31 quantizer (lines 150-153 and 247-252) *)

Module Quantizer.
Local Open Scope Q_scope.

(** [np.round]: the nearest integer, a tie going to the even neighbour. *)
Definition np_round (x : Q) : Z :=
  let n := Qfloor x in
  match Qcompare (x - inject_Z n) (1 # 2) with
  | Lt => n
  | Gt => (n + 1)%Z
  | Eq => if Z.even n then n else (n + 1)%Z
  end.

(** One row of [np.hstack((sos[:,:3], -sos[:,4:]))]. *)
Definition stage_coefs (row : sos_row) : list Q :=
  firstn 3 row ++ map Qopp (skipn 4 row).

(** [np.reshape(a, size)] of a two-dimensional array, row by row. *)
Definition reshape (rows : list (list Q)) (size : Z) : Py.outcome (list Q) :=
  let flat := concat rows in
  if (Z.of_nat (length flat) =? size)%Z
  then Py.Returns flat
  else Py.Raises Py.ValueError.

(** [coefs / (POSTSHIFT ** 2)] *)
Definition scale_down (c : Q) : Q := c / inject_Z (POSTSHIFT ^ 2).

(** [np.round(coefs * (2**31))] *)
Definition to_q31 (c : Q) : Z := np_round (c * inject_Z (2 ^ 31)).

(** The four statements that turn one band's sections into Q31 integers;
    [size] is the literal [15] at line 150 and [NUMSTAGES * 5] at line 247. *)
Definition quantize (sos : sos_array) (size : Z) : Py.outcome (list Z) :=
  coefs <- reshape (map stage_coefs sos) size ;;
  Py.Returns (map to_q31 (map scale_down coefs)).

(** The five coefficients of every section in a row, before the scaling. *)
Definition coefficients (sos : sos_array) : list Q := concat (map stage_coefs sos).

(** Modelled from the spec: the program never scales its integers back.
    The round-trip property reverses the scale factor: multiply by it,
    divide by [2^31]. *)
Definition dequantize (q : Z) : Q :=
  inject_Z q * inject_Z (POSTSHIFT ^ 2) / inject_Z (2 ^ 31).

(** The shape scipy gives a cascade of [NUMSTAGES] sections: one row of six
    numbers per section. *)
Definition well_formed (sos : sos_array) : Prop :=
  length sos = Z.to_nat NUMSTAGES /\ Forall (fun row => length row = 6%nat) sos.

End Quantizer.

(** ** The Q31 engine instance and the signal scaling (lines 255-269) *)

Module Arm.
Local Open Scope Q_scope.

(** What [arm_biquad_cascade_df1_init_q31] is given. *)
Record arm_biquad_casd_df1_inst_q31 : Type := mkInst {
  numStages : Z;
  pCoeffs : list Z;
  pState : list Q;
  postShift : Z
}.

(** Lines 256-258: a zeroed state of four registers per stage, the
    coefficients just stored in [self.coefs], and [POSTSHIFT] as shift. *)
Definition biquad_instance (self : SignalProcessor) : arm_biquad_casd_df1_inst_q31 :=
  {| numStages := NUMSTAGES;
     pCoeffs := coefs self;
     pState := repeat 0 (Z.to_nat (NUMSTAGES * 4));
     postShift := POSTSHIFT |}.

(** Lines 261-262: [input * (2**31) / 4] *)
Definition to_q31_signal (x : list Q) : list Q :=
  map (fun s => s * inject_Z (2 ^ 31) / 4) x.

(** A signed 32-bit integer after an operation that wraps around. *)
Definition wrap_int32 (z : Z) : Z := ((z + 2 ^ 31) mod 2 ^ 32 - 2 ^ 31)%Z.

(** Lines 268-269: [res2 *= 4; res2 / (2**31)].  The engine hands back an
    [int32] array, which the multiplication updates in place, so the product
    wraps around; the division then gives floats. *)
Definition from_q31_signal (y : list Z) : list Q :=
  map (fun s => inject_Z (wrap_int32 (s * 4)) / inject_Z (2 ^ 31)) y.

(** Modelled from the spec: the biquad engine of [cmsisdsp] is an external
    library whose code is not in the sources.  The accumulator scale that
    goes with a shift of [k] bits is [2^k]: the spec pairs a division by 4
    with a shift of 2 bits. *)
Definition shift_gain (k : Z) : Q := inject_Z (2 ^ k).

End Arm.

(** ** Reading a file: [load_input_signal] (lines 87-92) *)

(** [loaded] is what [librosa.load(filename, sr=None)] hands back: the
    samples and the sample rate of the file.  The result is the updated
    object and the value of the local [fs] after line 92, the rate the rest
    of the method plots with. *)
Definition load_input_signal (self : SignalProcessor) (loaded : list Q * Z)
  : Py.outcome (SignalProcessor * Z) :=
  let '(samples, fs_file) := loaded in
  let self := with_input_signal self (Some samples) in
  let fs_local := fs_file in
  let fs_local := fs self in
  Py.Returns (self, fs_local).

(** ** Design and filtering of the bands *)

Section Pipeline.

(** [butter], [tf2zpk] and [zpk2sos] of scipy in a row: order and the two
    normalised cut-offs in, second-order sections out (scipy raises on
    cut-offs it rejects). *)
Variable scipy_sos : Z -> npfloat -> npfloat -> Py.outcome sos_array.

(** [scipy.signal.sosfilt]; scipy raises on the cascades and the signals
    it rejects. *)
Variable sosfilt : sos_array -> list Q -> Py.outcome (list Q).

(** [cmsisdsp.arm_biquad_cascade_df1_q31]: the float samples in, an
    [int32] array out. *)
Variable arm_biquad_cascade_df1_q31 :
  Arm.arm_biquad_casd_df1_inst_q31 -> list Q -> list Z.

(** The cut-offs scipy's band-pass design accepts: finite, increasing and
    strictly inside (0, 1). *)
Definition valid_cutoffs (low high : npfloat) : Prop :=
  exists l h : R, low = Fin l /\ high = Fin h /\ (0 < l < h)%R /\ (h < 1)%R.

(** Band [i] can be designed: both of its edges are in the list and their
    quotients by the Nyquist frequency are valid cut-offs. *)
Definition band_ok (self : SignalProcessor) (i : Z) : Prop :=
  exists lo hi,
    Py.index (edges self) i = Py.Returns lo /\
    Py.index (edges self) (i + 1) = Py.Returns hi /\
    valid_cutoffs (Np.div lo (Planner.nyquist (fs self)))
                  (Np.div hi (Planner.nyquist (fs self))).

(** Lines 176-196; the frequency response is only plotted. *)
Definition butter_bandpass (lowcut highcut : npfloat) (fs : Z) (i : Z) (order : Z)
  : Py.outcome sos_array :=
  let nyquist := Planner.nyquist fs in
  let low := Np.div lowcut nyquist in
  let high := Np.div highcut nyquist in
  scipy_sos order low high.

(** [sos] is the cascade designed for band [i] of the plan in [self]. *)
Definition designed (self : SignalProcessor) (i : Z) (sos : sos_array) : Prop :=
  Quantizer.well_formed sos /\
  exists lo hi,
    Py.index (edges self) i = Py.Returns lo /\
    Py.index (edges self) (i + 1) = Py.Returns hi /\
    butter_bandpass lo hi (fs self) i NUMSTAGES = Py.Returns sos.

(** The loop of lines 142-163 over the band numbers still to do. *)
Fixpoint design_bands (bands : list Z) (self : SignalProcessor)
  : Py.outcome SignalProcessor :=
  match bands with
  | [] => Py.Returns self
  | i :: rest =>
      lowcut <- Py.index (edges self) i ;;
      highcut <- Py.index (edges self) (i + 1) ;;
      sos <- butter_bandpass lowcut highcut (fs self) i NUMSTAGES ;;
      let self := with_sos_list self (sos_list self ++ [sos]) in
      coefsQ31 <- Quantizer.quantize sos 15 ;;
      design_bands rest self
  end.

Definition plot_bandpass_filter_response (self : SignalProcessor)
  : Py.outcome SignalProcessor :=
  design_bands (Py.range 0 NUM_BANDS) self.

(** Line 201: one call of [sosfilt] per stored cascade; scipy rejects a
    signal that is still [None]. *)
Fixpoint filter_each (cascades : list sos_array) (x : option (list Q))
  : Py.outcome (list (list Q)) :=
  match cascades with
  | [] => Py.Returns []
  | sos :: rest =>
      y <- match x with
           | Some v => sosfilt sos v
           | None => Py.Raises Py.ValueError
           end ;;
      ys <- filter_each rest x ;;
      Py.Returns (y :: ys)
  end.

(** Lines 198-205: the filtered bands, before they are summed and written
    to the output file. *)
Definition apply_filters_and_print_python (self : SignalProcessor)
  : Py.outcome (list (list Q)) :=
  signal_list <- filter_each (sos_list self) (input_signal self) ;;
  first <- Py.index signal_list 0 ;;
  Py.Returns signal_list.

(** [y] is what one turn of the loop of lines 243-272 appends for the
    cascade [sos] and the input [v]: quantize, run the engine on the
    scaled-down signal, scale its output back. *)
Definition band_signal_ARM (v : list Q) (sos : sos_array) (y : list Q) : Prop :=
  exists qs,
    Quantizer.quantize sos (NUMSTAGES * 5) = Py.Returns qs /\
    y = Arm.from_q31_signal
          (arm_biquad_cascade_df1_q31
             {| Arm.numStages := NUMSTAGES;
                Arm.pCoeffs := qs;
                Arm.pState := repeat 0%Q (Z.to_nat (NUMSTAGES * 4));
                Arm.postShift := POSTSHIFT |}
             (Arm.to_q31_signal v)).

(** The loop of lines 243-272. *)
Fixpoint filter_bands_ARM (bands : list Z) (self : SignalProcessor)
  (signal_ARM : list (list Q)) : Py.outcome (SignalProcessor * list (list Q)) :=
  match bands with
  | [] => Py.Returns (self, signal_ARM)
  | i :: rest =>
      sos <- Py.index (sos_list self) i ;;
      coefsQ31 <- Quantizer.quantize sos (NUMSTAGES * 5) ;;
      let self := with_coefs self coefsQ31 in
      let biquadQ31 := Arm.biquad_instance self in
      x <- match input_signal self with
           | Some v => Py.Returns v
           | None => Py.Raises Py.TypeError
           end ;;
      let sigQ31 := Arm.to_q31_signal x in
      let res2 := arm_biquad_cascade_df1_q31 biquadQ31 sigQ31 in
      let res2 := Arm.from_q31_signal res2 in
      filter_bands_ARM rest self (signal_ARM ++ [res2])
  end.

(** Lines 237-276: the filtered bands, before they are summed and written
    to the output file. *)
Definition apply_filters_and_print_ARM (self : SignalProcessor)
  : Py.outcome (SignalProcessor * list (list Q)) :=
  ' (self, signal_ARM) <- filter_bands_ARM (Py.range 0 NUM_BANDS) self [] ;;
  first <- Py.index signal_ARM 0 ;;
  Py.Returns (self, signal_ARM).


End Pipeline.

(** ** Sample inputs *)

(** A cascade with coefficients of the size a low band-pass section has. *)
Definition sample_sos : sos_array :=
  [[1 # 1000000; 2 # 1000000; 1 # 1000000; 1; - (19 # 10); 91 # 100];
   [1; 0; - (1); 1; - (195 # 100); 96 # 100];
   [1; - (2); 1; 1; - (198 # 100); 99 # 100]]%Q.

(** A cascade whose first section has a numerator gain of 16. *)
Definition loud_sos : sos_array :=
  [[16; 0; 0; 1; 0; 0]; [1; 0; 0; 1; 0; 0]; [1; 0; 0; 1; 0; 0]]%Q.

(** Stand-ins for the three library functions: a designer that always
    answers [sample_sos], a float filter that hands the signal through and
    an engine that hands on the integer part of every sample. *)
Definition sample_designer : Z -> npfloat -> npfloat -> Py.outcome sos_array :=
  fun _ _ _ => Py.Returns sample_sos.

Definition sample_sosfilt : sos_array -> list Q -> Py.outcome (list Q) :=
  fun _ x => Py.Returns x.

Definition sample_engine : Arm.arm_biquad_casd_df1_inst_q31 -> list Q -> list Z :=
  fun _ x => map Qfloor x.

Definition sample_signal : list Q := [1 # 2; - (1 # 4); 3 # 4]%Q.

(** ** The test signal: [generate_input_signal] (lines 26-27 and 57-65) *)

Definition SIG_BASE_FREQUENCY : Z := 80.
Definition SIG_NOISE_FREQUENCY : Z := 2000.

Module Signal.
Local Open Scope R_scope.

(** The least integer that is not below [x]. *)
Definition ceil (x : R) : Z := (1 - up (- x))%Z.

(** [np.arange(start, stop, step)]: [ceil((stop - start) / step)] values
    [start + k * step]. *)
Definition arange (start stop step : R) : list R :=
  map (fun k => start + INR k * step)
      (seq 0 (Z.to_nat (ceil ((stop - start) / step)))).

(** Lines 61-65 at one instant [t]: the base sine plus a quarter of the
    noise sine. *)
Definition two_tone (t : R) : R :=
  sin (2 * PI * IZR SIG_BASE_FREQUENCY * t)
  + 0.25 * sin (2 * PI * IZR SIG_NOISE_FREQUENCY * t).

(** The samples the method stores in [self.input_signal].  [None] stands
    for the [ZeroDivisionError] of [1/self.fs] at a sample rate of zero. *)
Definition generate_input_signal (self : SignalProcessor) : option (list R) :=
  if (fs self =? 0)%Z then None
  else
    let t := arange 0 0.5 (1 / IZR (fs self)) in
    Some (map two_tone t).

End Signal.

(** An object that holds a hand-made plan of seven edges and a signal. *)
Definition planned_processor : SignalProcessor :=
  with_plan (with_input_signal init (Some sample_signal))
            [50; 100; 200; 400; 800; 1600; 3200; 6400]%R
            [Fin 70; Fin 140; Fin 280; Fin 560; Fin 1120; Fin 2240; Fin 4480].

(** An object that holds a signal and the given cascades. *)
Definition cascaded_processor (cascades : list sos_array) : SignalProcessor :=
  with_sos_list (with_input_signal init (Some sample_signal)) cascades.

(** * Properties *)

Module PyFacts.

Lemma range_length (lo hi : Z) : length (Py.range lo hi) = Z.to_nat (hi - lo).
Proof. unfold Py.range. now rewrite length_map, length_seq. Qed.

Lemma range_nth (lo hi : Z) (k : nat) (d : Z) :
  (k < Z.to_nat (hi - lo))%nat -> nth k (Py.range lo hi) d = (lo + Z.of_nat k)%Z.
Proof.
  intros Hk. unfold Py.range.
  rewrite (nth_indep _ d (lo + Z.of_nat 0)%Z) by now rewrite length_map, length_seq.
  rewrite (map_nth (fun k => (lo + Z.of_nat k)%Z) _ 0%nat k).
  now rewrite seq_nth.
Qed.

Lemma setitem_app {A : Type} (pre : list A) (x v : A) (rest : list A) :
  Py.setitem (pre ++ x :: rest) (length pre) v = pre ++ v :: rest.
Proof. induction pre as [|p pre IH]; simpl; [reflexivity | now rewrite IH]. Qed.

(** Overwriting the entries [a], [a+1], ... one after the other leaves the
    list of the new values. *)
Lemma fold_setitem {A : Type} (g : nat -> A) (k : nat) :
  forall (pre rest : list A),
    length rest = k ->
    fold_left (fun l i => Py.setitem l i (g i)) (seq (length pre) k) (pre ++ rest)
    = pre ++ map g (seq (length pre) k).
Proof.
  induction k as [|k IH]; intros pre rest Hlen.
  - destruct rest; [reflexivity | discriminate].
  - destruct rest as [|r rest]; [discriminate|].
    simpl. rewrite setitem_app.
    replace (pre ++ g (length pre) :: rest) with ((pre ++ [g (length pre)]) ++ rest)
      by now rewrite <- app_assoc.
    replace (S (length pre)) with (length (pre ++ [g (length pre)]))
      by (rewrite length_app; simpl; lia).
    rewrite IH by (simpl in Hlen; lia).
    now rewrite <- app_assoc.
Qed.

End PyFacts.

Module PlannerFacts.
Import Planner.
Local Open Scope R_scope.

Lemma fill_edges_map (fr : list R) :
  fill_edges fr
  = map (fun i => edge_between (nth i fr 0) (nth (S i) fr 0))
        (seq 0 (length fr - 1)).
Proof.
  unfold fill_edges.
  apply (PyFacts.fold_setitem
           (fun i => edge_between (nth i fr 0) (nth (S i) fr 0))
           (length fr - 1) [] (repeat (Fin 0) (length fr - 1))).
  apply repeat_length.
Qed.

Lemma fill_edges_length (fr : list R) : length (fill_edges fr) = (length fr - 1)%nat.
Proof. now rewrite fill_edges_map, length_map, length_seq. Qed.

Lemma fill_edges_nth (fr : list R) (k : nat) :
  (k < length fr - 1)%nat ->
  nth_error (fill_edges fr) k = Some (edge_between (nth k fr 0) (nth (S k) fr 0)).
Proof.
  intros Hk. rewrite fill_edges_map.
  rewrite nth_error_map, nth_error_nth' with (d := 0%nat) by now rewrite length_seq.
  now rewrite seq_nth.
Qed.

Lemma octave_centers_length (base : R) (n : Z) :
  length (octave_centers base n) = Z.to_nat (n + 1).
Proof.
  unfold octave_centers. now rewrite length_map, PyFacts.range_length.
Qed.

Lemma octave_centers_nth (base : R) (n : Z) (k : nat) :
  (k < Z.to_nat (n + 1))%nat ->
  nth k (octave_centers base n) 0 = base * powerRZ 2 (Z.of_nat k - 1).
Proof.
  intros Hk. unfold octave_centers.
  rewrite (nth_indep _ 0 (base * powerRZ 2 0)).
  2:{ rewrite length_map, PyFacts.range_length. lia. }
  rewrite (map_nth (fun i => base * powerRZ 2 i) _ 0%Z k).
  rewrite PyFacts.range_nth by lia.
  f_equal. f_equal. lia.
Qed.

Lemma powerRZ_2_succ (z : Z) : powerRZ 2 (z + 1) = 2 * powerRZ 2 z.
Proof. rewrite powerRZ_add by lra. rewrite powerRZ_1. lra. Qed.

Lemma ln10_pos : 0 < ln 10.
Proof. rewrite <- ln_1. apply ln_increasing; lra. Qed.

(** For positive frequencies the edge formula is the geometric mean. *)
Lemma edge_between_sqrt (lo hi : R) :
  0 < lo -> 0 < hi -> edge_between lo hi = Fin (sqrt (lo * hi)).
Proof.
  intros Hlo Hhi. unfold edge_between, Np.log10.
  destruct (Rlt_dec 0 lo) as [_|C]; [|contradiction].
  destruct (Rlt_dec 0 hi) as [_|C]; [|contradiction].
  simpl. f_equal.
  assert (Hprod : 0 < lo * hi) by (apply Rmult_lt_0_compat; assumption).
  rewrite <- Rpower_sqrt by assumption.
  unfold Rpower, Rlog. f_equal.
  rewrite ln_mult by assumption.
  pose proof ln10_pos. field. lra.
Qed.

Lemma sqrt_octave_between (c : R) :
  0 < c -> c < sqrt (c * (2 * c)) < 2 * c.
Proof.
  intros Hc. split.
  - rewrite <- (sqrt_square c) at 1 by lra. apply sqrt_lt_1_alt. nra.
  - rewrite <- (sqrt_square (2 * c)) at 2 by lra. apply sqrt_lt_1_alt. nra.
Qed.

(** Shape of the plan for a positive base frequency. *)
Lemma plan_shape (f : R) (n : Z) :
  0 < f ->
  let centers := fst (centers_and_edges f n) in
  let edges := snd (centers_and_edges f n) in
  length centers = Z.to_nat (n + 1) /\
  length edges = (Z.to_nat (n + 1) - 1)%nat /\
  (forall k, (k < Z.to_nat (n + 1))%nat ->
     nth k centers 0 = f * powerRZ 2 (Z.of_nat k - 1)) /\
  (forall k, (S k < Z.to_nat (n + 1))%nat ->
     nth (S k) centers 0 = 2 * nth k centers 0 /\
     0 < nth k centers 0 /\
     nth_error edges k = Some (Fin (sqrt (nth k centers 0 * nth (S k) centers 0)))).
Proof.
  intros Hf. cbv zeta. unfold centers_and_edges. cbn [fst snd].
  split; [apply octave_centers_length|].
  split; [now rewrite fill_edges_length, octave_centers_length|].
  split; [intros k Hk; now apply octave_centers_nth|].
  intros k Hk.
  assert (Hpos : forall j, (j < Z.to_nat (n + 1))%nat -> 0 < nth j (octave_centers f n) 0).
  { intros j Hj. rewrite octave_centers_nth by assumption.
    apply Rmult_lt_0_compat; [assumption | apply powerRZ_lt; lra]. }
  split; [|split].
  - rewrite !octave_centers_nth by lia.
    replace (Z.of_nat (S k) - 1)%Z with (Z.of_nat k - 1 + 1)%Z by lia.
    rewrite powerRZ_2_succ. ring.
  - apply Hpos. lia.
  - rewrite fill_edges_nth by (rewrite octave_centers_length; lia).
    f_equal. apply edge_between_sqrt; apply Hpos; lia.
Qed.

(** *** The method itself: when it returns and what it can raise *)

Lemma comprehension_returns {A B : Type} (f : A -> Py.outcome B)
    (P : A -> B -> Prop) (xs : list A) :
  (forall a, In a xs -> exists b, f a = Py.Returns b /\ P a b) ->
  exists bs, Py.comprehension f xs = Py.Returns bs /\ Forall2 P xs bs.
Proof.
  induction xs as [|a xs IH]; intros H.
  - exists []. split; [reflexivity | constructor].
  - destruct (H a (or_introl eq_refl)) as (b & Hb & Pb).
    destruct IH as (bs & Hbs & Pbs); [intros a' Ha'; apply H; now right|].
    exists (b :: bs). cbn [Py.comprehension]. rewrite Hb, Hbs.
    split; [reflexivity | now constructor].
Qed.

Lemma comprehension_raises {A B : Type} (f : A -> Py.outcome B)
    (P : Py.exception -> Prop) (xs : list A) (e : Py.exception) :
  (forall a e', f a = Py.Raises e' -> P e') ->
  Py.comprehension f xs = Py.Raises e -> P e.
Proof.
  intros Hf. induction xs as [|a xs IH]; cbn [Py.comprehension]; [discriminate|].
  destruct (f a) as [b|e'] eqn:Ea.
  - destruct (Py.comprehension f xs) as [bs|e'']; [discriminate|].
    intros H. injection H as ->. now apply IH.
  - intros H. injection H as ->. now apply (Hf a).
Qed.

Lemma range_bounds (lo hi i : Z) : In i (Py.range lo hi) -> (lo <= i < hi)%Z.
Proof.
  unfold Py.range. rewrite in_map_iff. intros (k & <- & Hk).
  apply in_seq in Hk. lia.
Qed.

Lemma IZR_pow2 (i : Z) : (0 <= i)%Z -> IZR (2 ^ i) = powerRZ 2 i.
Proof.
  intros Hi. rewrite <- (Z2Nat.id i) by assumption.
  now rewrite <- pow_IZR, pow_powerRZ.
Qed.

Lemma float_limit : (2 ^ 1023 < 2 ^ 1024 - 2 ^ 970)%Z.
Proof. reflexivity. Qed.

Lemma float_of_int_small (z : Z) :
  (Z.abs z <= 2 ^ 1023)%Z -> float_of_int z = Py.Returns (IZR z).
Proof.
  intros H. unfold float_of_int.
  destruct (Z.ltb_spec (Z.abs z) (2 ^ 1024 - 2 ^ 970)) as [_|C]; [reflexivity|].
  pose proof float_limit. lia.
Qed.

(** Inside the range every center is computed, has the value
    [base * 2^i], and has a logarithm. *)
Lemma center_within_range (base : pynumber) (n i : Z) :
  within_range base n -> (-1 <= i < n)%Z ->
  exists c,
    center base i = Py.Returns c /\
    value c = value base * powerRZ 2 i /\
    log10 c = Py.Returns (Np.log10 (value c)).
Proof.
  intros Hr Hi. destruct base as [z | x]; cbn [within_range center value] in *.
  - destruct Hr as [Hlo Hhi].
    assert (Hm : (1 <= 2 ^ Z.max 0 (n - 1))%Z)
      by (apply (Z.pow_le_mono_r 2 0); lia).
    destruct (Z.ltb_spec i 0) as [Hneg | Hpos].
    + rewrite float_of_int_small.
      2:{ assert ((2 ^ 64 <= 2 ^ 1023)%Z) by (apply Z.pow_le_mono_r; lia). nia. }
      cbn [Py.bind]. eexists. split; [reflexivity|]. split; reflexivity.
    + eexists. split; [reflexivity|]. cbn [value log10].
      split; [now rewrite mult_IZR, IZR_pow2|].
      assert (Hle : (2 ^ i <= 2 ^ Z.max 0 (n - 1))%Z)
        by (apply Z.pow_le_mono_r; lia).
      assert (Hp : (0 < 2 ^ i)%Z) by (apply Z.pow_pos_nonneg; lia).
      destruct (Z.leb_spec (- 2 ^ 63) (z * 2 ^ i)) as [_|C]; [|nia].
      destruct (Z.ltb_spec (z * 2 ^ i) (2 ^ 64)) as [_|C]; [|nia].
      reflexivity.
  - destruct (Z.ltb_spec i 0) as [Hneg | Hpos].
    + eexists. split; [reflexivity|]. split; reflexivity.
    + rewrite float_of_int_small.
      2:{ rewrite Z.abs_eq by (apply Z.pow_nonneg; lia).
          apply Z.pow_le_mono_r; lia. }
      cbn [Py.bind]. eexists. split; [reflexivity|]. cbn [value log10].
      split; [now rewrite IZR_pow2 | reflexivity].
Qed.

Lemma log10_raises (c : pynumber) (e : Py.exception) :
  log10 c = Py.Raises e -> e = Py.TypeError.
Proof.
  destruct c as [z | x]; cbn [log10]; [|discriminate].
  destruct ((- 2 ^ 63 <=? z) && (z <? 2 ^ 64))%Z; [discriminate|].
  now intros H; injection H as <-.
Qed.

Lemma edge_raises (lo hi : pynumber) (e : Py.exception) :
  edge lo hi = Py.Raises e -> e = Py.TypeError.
Proof.
  unfold edge.
  destruct (log10 lo) as [a|e1] eqn:Ea; cbn [Py.bind].
  - destruct (log10 hi) as [b|e2] eqn:Eb; cbn [Py.bind]; [discriminate|].
    intros H; injection H as <-. now apply (log10_raises hi).
  - intros H; injection H as <-. now apply (log10_raises lo).
Qed.

Lemma edge_returns (lo hi : pynumber) :
  log10 lo = Py.Returns (Np.log10 (value lo)) ->
  log10 hi = Py.Returns (Np.log10 (value hi)) ->
  edge lo hi = Py.Returns (edge_between (value lo) (value hi)).
Proof. intros Hlo Hhi. unfold edge. now rewrite Hlo, Hhi. Qed.

Lemma edges_loop_raises (fr : list pynumber) (todo : list nat) :
  forall acc e, edges_loop fr todo acc = Py.Raises e -> e = Py.TypeError.
Proof.
  induction todo as [|i rest IH]; intros acc e; cbn [edges_loop]; [discriminate|].
  destruct (edge (nth i fr (PyFloat 0)) (nth (S i) fr (PyFloat 0))) as [v|e'] eqn:E;
    cbn [Py.bind].
  - apply IH.
  - intros H; injection H as <-. now apply edge_raises in E.
Qed.


Lemma edges_loop_returns (fr : list pynumber) (todo : list nat) :
  Forall (fun c => log10 c = Py.Returns (Np.log10 (value c))) fr ->
  (forall i, In i todo -> (S i < length fr)%nat) ->
  forall acc,
    edges_loop fr todo acc
    = Py.Returns
        (fold_left
           (fun edges i =>
              Py.setitem edges i
                (edge_between (nth i (map value fr) 0) (nth (S i) (map value fr) 0)))
           todo acc).
Proof.
  intros Hgood. rewrite Forall_forall in Hgood.
  assert (Hval : forall i, (i < length fr)%nat ->
            nth i (map value fr) 0 = value (nth i fr (PyFloat 0))).
  { intros i Hi. rewrite (nth_indep _ 0 (value (PyFloat 0))) by now rewrite length_map.
    apply map_nth. }
  induction todo as [|i rest IH]; intros Hin acc; [reflexivity|].
  cbn [edges_loop fold_left].
  assert (Hi : (S i < length fr)%nat) by (apply Hin; now left).
  rewrite edge_returns by (apply Hgood, nth_In; lia).
  cbn [Py.bind]. rewrite !Hval by lia.
  apply IH. intros j Hj. apply Hin. now right.
Qed.

(** Inside the range the method returns the plan [centers_and_edges]
    describes, and only changes the two lists of the object. *)
Lemma calculate_centers_returns (self : SignalProcessor) (base : pynumber) (n : Z) :
  within_range base n ->
  calculate_centers self base n
  = Py.Returns (with_plan self (fst (centers_and_edges (value base) n))
                               (snd (centers_and_edges (value base) n)),
                centers_and_edges (value base) n).
Proof.
  intros Hr.
  destruct (comprehension_returns (center base)
              (fun i c => value c = value base * powerRZ 2 i /\
                          log10 c = Py.Returns (Np.log10 (value c)))
              (Py.range (-1) n)) as (fr & Hfr & Hall).
  { intros i Hi. apply range_bounds in Hi.
    destruct (center_within_range base n i Hr Hi) as (c & Hc & Hv & Hl).
    exists c. now repeat split. }
  assert (Hvals : map value fr = octave_centers (value base) n).
  { unfold octave_centers. clear Hfr.
    induction Hall as [|i c ixs cs [Hv _] _ IH]; [reflexivity|].
    cbn [map]. now rewrite Hv, IH. }
  assert (Hgood : Forall (fun c => log10 c = Py.Returns (Np.log10 (value c))) fr).
  { clear Hfr Hvals. induction Hall as [|i c ixs cs [_ Hl] _ IH]; now constructor. }
  unfold calculate_centers. rewrite Hfr. cbn [Py.bind].
  rewrite (edges_loop_returns fr _ Hgood).
  2:{ intros i Hi. apply in_seq in Hi. lia. }
  cbn [Py.bind]. unfold centers_and_edges. cbn [fst snd].
  rewrite <- Hvals. unfold fill_edges. now rewrite length_map.
Qed.

(** Whatever the arguments, the method raises nothing but the two errors of
    Python's and numpy's number conversions. *)
Lemma calculate_centers_raises (self : SignalProcessor) (base : pynumber) (n : Z)
    (e : Py.exception) :
  calculate_centers self base n = Py.Raises e ->
  e = Py.OverflowError \/ e = Py.TypeError.
Proof.
  unfold calculate_centers.
  destruct (Py.comprehension (center base) (Py.range (-1) n)) as [fr|e'] eqn:Efr;
    cbn [Py.bind].
  - destruct (edges_loop fr (seq 0 (length fr - 1)) (repeat (Fin 0) (length fr - 1)))
      as [es|e''] eqn:Ees; cbn [Py.bind]; [discriminate|].
    intros H; injection H as <-. right. now apply edges_loop_raises in Ees.
  - intros H; injection H as <-. left.
    apply (comprehension_raises (center base) (fun e => e = Py.OverflowError)) in Efr;
      [exact Efr|].
    intros i e0. unfold center, float_of_int.
    destruct base as [z | x]; destruct (i <? 0)%Z; try discriminate.
    + destruct (Z.abs z <? 2 ^ 1024 - 2 ^ 970)%Z; cbn [Py.bind]; [discriminate|].
      now intros H; injection H as <-.
    + destruct (Z.abs (2 ^ i) <? 2 ^ 1024 - 2 ^ 970)%Z; cbn [Py.bind]; [discriminate|].
      now intros H; injection H as <-.
Qed.

Lemma within_range_int (z n : Z) :
  (0 <= z)%Z -> (z * 2 ^ Z.max 0 (n - 1) < 2 ^ 64)%Z -> within_range (PyInt z) n.
Proof.
  intros Hz Hlt. split; [|exact Hlt].
  assert ((0 <= 2 ^ Z.max 0 (n - 1))%Z) by (apply Z.pow_nonneg; lia). nia.
Qed.



Lemma default_within_range (n : Z) :
  (n <= 8)%Z -> within_range (PyInt BASE_FREQUENCY) n.
Proof.
  intros Hn. apply within_range_int; [unfold BASE_FREQUENCY; lia|].
  assert (H : (2 ^ Z.max 0 (n - 1) <= 2 ^ 7)%Z) by (apply Z.pow_le_mono_r; lia).
  unfold BASE_FREQUENCY.
  apply Z.le_lt_trans with (100 * 2 ^ 7)%Z; [lia | reflexivity].
Qed.


Lemma octave_centers_default :
  octave_centers (IZR BASE_FREQUENCY) NUM_BANDS = [50; 100; 200; 400; 800; 1600; 3200].
Proof.
  unfold octave_centers.
  change (Py.range (-1) NUM_BANDS) with [-1; 0; 1; 2; 3; 4; 5]%Z.
  unfold BASE_FREQUENCY. cbn [map].
  repeat (apply f_equal2; [simpl; lra|]). reflexivity.
Qed.


(** C2: with base frequency 100 and 6 bands the planner returns exactly the
    centers 50, 100, 200, 400, 800, 1600, 3200 and six edges; every edge
    lies strictly between its two neighbouring centers and below the Nyquist
    frequency 8000 of the sample rate 16000. *)
Theorem default_plan :
  let centers := [50; 100; 200; 400; 800; 1600; 3200] in
  exists edges,
    calculate_centers init (PyInt BASE_FREQUENCY) NUM_BANDS
      = Py.Returns (with_plan init centers edges, (centers, edges)) /\
    length edges = 6%nat /\
    nyquist FS = 8000 /\
    (forall k, (k < 6)%nat ->
       exists e,
         nth_error edges k = Some (Fin e) /\
         nth k centers 0 < e < nth (S k) centers 0 /\
         e < nyquist FS).
Proof.
  cbv zeta.
  assert (Hf : 0 < IZR BASE_FREQUENCY) by (unfold BASE_FREQUENCY; lra).
  destruct (plan_shape (IZR BASE_FREQUENCY) NUM_BANDS Hf) as (_ & Hle & _ & Hstep).
  exists (snd (centers_and_edges (IZR BASE_FREQUENCY) NUM_BANDS)).
  assert (Hc : fst (centers_and_edges (IZR BASE_FREQUENCY) NUM_BANDS)
               = [50; 100; 200; 400; 800; 1600; 3200])
    by apply octave_centers_default.
  rewrite Hc in Hstep.
  assert (Hny : nyquist FS = 8000) by (unfold nyquist, FS; lra).
  split.
  - rewrite calculate_centers_returns
      by (apply default_within_range; unfold NUM_BANDS; lia).
    cbn [value].
    destruct (centers_and_edges (IZR BASE_FREQUENCY) NUM_BANDS) as [c e].
    cbn [fst snd] in *. now subst c.
  - split; [exact Hle|]. split; [exact Hny|].
    intros k Hk.
    destruct (Hstep k) as (H2 & Hp & He); [change (Z.to_nat (NUM_BANDS + 1)) with 7%nat; lia|].
    eexists. split; [exact He|].
    pose proof (sqrt_octave_between _ Hp) as Hb.
    rewrite H2. rewrite Hny.
    assert (Hmax : nth k [50; 100; 200; 400; 800; 1600; 3200] 0 <= 1600).
    { do 6 (destruct k as [|k]; [simpl; lra|]). lia. }
    lra.
Qed.

(** A frequency that is not positive has no finite logarithm, and the edge
    computed from it is [nan]. *)
Lemma edge_between_nan (lo hi : R) : lo <= 0 -> edge_between lo hi = NaN.
Proof.
  intros Hlo. unfold edge_between, Np.log10.
  destruct (Rlt_dec 0 lo) as [C|_]; [lra|].
  destruct (Req_dec_T lo 0) as [_|_];
    destruct (Rlt_dec 0 hi) as [_|_]; try reflexivity;
    destruct (Req_dec_T hi 0) as [_|_]; reflexivity.
Qed.

(** C7, counterexample: with base frequency 100 and 8 bands at the sample
    rate 16000 the highest edge, about 9051 Hz, is above the Nyquist
    frequency 8000, and [calculate_centers] returns its lists all the same. *)
Lemma edge_above_nyquist_accepted :
  exists centers edges e,
    calculate_centers init (PyInt 100) 8
    = Py.Returns (with_plan init centers edges, (centers, edges)) /\
    nth_error edges 7 = Some (Fin e) /\
    nyquist (fs init) <= e.
Proof.
  assert (Hf : 0 < 100) by lra.
  destruct (plan_shape 100 8 Hf) as (_ & _ & Hnth & Hstep).
  destruct (Hstep 7%nat) as (H2 & Hp & He); [simpl; lia|].
  exists (fst (centers_and_edges 100 8)), (snd (centers_and_edges 100 8)).
  eexists. split; [|split; [exact He|]].
  - rewrite calculate_centers_returns by (apply (default_within_range 8); lia).
    cbn [value]. now destruct (centers_and_edges 100 8).
  - rewrite H2. rewrite (Hnth 7%nat) by (simpl; lia).
    replace (100 * powerRZ 2 (Z.of_nat 7 - 1)) with 6400 by (simpl; lra).
    replace (nyquist (fs init)) with 8000
      by (unfold nyquist; change (fs init) with 16000%Z; lra).
    rewrite <- (sqrt_square 8000) at 1 by lra.
    apply sqrt_le_1_alt. lra.
Qed.

(** C7, as the code has it: [calculate_centers] checks neither the base
    frequency nor the edges.  Whenever Python and numpy can convert the
    numbers of the plan it returns [n+1] centers and the edges between
    them, whatever the sample rate of the object and however high the
    edges; with a base frequency that is zero or negative every edge is
    [nan].  Beyond that range of numbers it can only raise [OverflowError]
    or [TypeError]. *)
Theorem calculate_centers_checks_nothing (self : SignalProcessor)
    (base : pynumber) (n : Z) :
  (within_range base n ->
   exists centers edges,
     calculate_centers self base n
     = Py.Returns (with_plan self centers edges, (centers, edges)) /\
     length centers = Z.to_nat (n + 1) /\
     length edges = (Z.to_nat (n + 1) - 1)%nat /\
     (value base <= 0 ->
      forall k, (k < length edges)%nat -> nth_error edges k = Some NaN)) /\
  (forall e,
     calculate_centers self base n = Py.Raises e ->
     e = Py.OverflowError \/ e = Py.TypeError).
Proof.
  split; [|intros e; apply calculate_centers_raises].
  intros Hr.
  exists (octave_centers (value base) n), (fill_edges (octave_centers (value base) n)).
  split; [now rewrite calculate_centers_returns|].
  split; [apply octave_centers_length|].
  split; [now rewrite fill_edges_length, octave_centers_length|].
  intros Hf k Hk. rewrite fill_edges_length in Hk.
  rewrite fill_edges_nth by assumption. f_equal.
  apply edge_between_nan.
  rewrite octave_centers_length in Hk.
  rewrite octave_centers_nth by lia.
  assert (0 < powerRZ 2 (Z.of_nat k - 1)) by (apply powerRZ_lt; lra).
  nra.
Qed.

Lemma calculate_centers_checks_nothing_witness :
  within_range (PyFloat 0) 2 /\ value (PyFloat 0) <= 0 /\
  exists centers edges,
    calculate_centers init (PyFloat 0) 2
    = Py.Returns (with_plan init centers edges, (centers, edges)) /\
    nth_error edges 0 = Some NaN /\ nth_error edges 1 = Some NaN.
Proof.
  assert (Hr : within_range (PyFloat 0) 2) by (cbn [within_range]; lia).
  assert (H0 : value (PyFloat 0) <= 0) by (cbn [value]; lra).
  split; [exact Hr|]. split; [exact H0|].
  destruct (proj1 (calculate_centers_checks_nothing init (PyFloat 0) 2) Hr)
    as (c & e & H & _ & He & Hnan).
  exists c, e. split; [exact H|].
  split; apply Hnan; try exact H0; rewrite He; simpl; lia.
Defined.

End PlannerFacts.

Module QuantizerFacts.
Import Quantizer.
Local Open Scope Q_scope.

Lemma np_round_cases (x : Q) :
  let n := Qfloor x in
  (np_round x = n /\ x - inject_Z n <= 1 # 2) \/
  (np_round x = (n + 1)%Z /\ 1 # 2 <= x - inject_Z n).
Proof.
  cbv zeta. unfold np_round.
  destruct (Qcompare (x - inject_Z (Qfloor x)) (1 # 2)) eqn:E.
  - apply Qeq_alt in E.
    destruct (Z.even (Qfloor x)); [left | right]; split; try reflexivity;
      rewrite E; apply Qle_refl.
  - apply Qlt_alt in E. left. split; [reflexivity | now apply Qlt_le_weak].
  - apply Qgt_alt in E. right. split; [reflexivity | now apply Qlt_le_weak].
Qed.

(** [np.round] moves a number by at most one half. *)
Lemma np_round_nearest (x : Q) : Qabs (inject_Z (np_round x) - x) <= 1 # 2.
Proof.
  pose proof (Qfloor_le x) as Hlo.
  pose proof (Qlt_floor x) as Hhi.
  rewrite inject_Z_plus in Hhi. change (inject_Z 1) with 1 in Hhi.
  apply Qabs_Qle_condition.
  destruct (np_round_cases x) as [[-> H] | [-> H]].
  - split; Lqa.lra.
  - rewrite inject_Z_plus. change (inject_Z 1) with 1. split; Lqa.lra.
Qed.

(** [np.round] never crosses an integer. *)
Lemma np_round_ge (x : Q) (N : Z) : inject_Z N <= x -> (N <= np_round x)%Z.
Proof.
  intros H.
  assert (HN : (N <= Qfloor x)%Z).
  { rewrite <- (Qfloor_Z N). now apply Qfloor_resp_le. }
  destruct (np_round_cases x) as [[-> _] | [-> _]]; lia.
Qed.

Lemma np_round_le (x : Q) (N : Z) : x <= inject_Z N -> (np_round x <= N)%Z.
Proof.
  intros H.
  assert (HN : (Qfloor x <= N)%Z).
  { rewrite <- (Qfloor_Z N). now apply Qfloor_resp_le. }
  destruct (np_round_cases x) as [[-> _] | [-> Hhalf]]; [lia|].
  destruct (Z.eq_dec (Qfloor x) N) as [E | NE]; [|lia].
  exfalso. rewrite E in Hhalf. Lqa.lra.
Qed.

(** Scaling back after rounding is off by half a step of [16 / 2^31] at
    most, for every coefficient. *)
Lemma dequantize_error (c : Q) :
  Qabs (dequantize (to_q31 (scale_down c)) - c) <= 8 / 2147483648.
Proof.
  pose proof (np_round_nearest (scale_down c * inject_Z (2 ^ 31))) as H.
  unfold dequantize, to_q31.
  set (q := inject_Z (np_round (scale_down c * inject_Z (2 ^ 31)))) in *.
  assert (E : q * inject_Z (POSTSHIFT ^ 2) / inject_Z (2 ^ 31) - c
              == (q - scale_down c * inject_Z (2 ^ 31)) * (16 / 2147483648)).
  { unfold scale_down.
    change (inject_Z (POSTSHIFT ^ 2)) with 16.
    change (inject_Z (2 ^ 31)) with 2147483648.
    field. }
  rewrite E, Qabs_Qmult.
  change (Qabs (16 / 2147483648)) with (16 / 2147483648).
  setoid_replace (8 / 2147483648) with ((1 # 2) * (16 / 2147483648)) by reflexivity.
  apply Qmult_le_compat_r; [exact H | discriminate].
Qed.

Example np_round_half_down : np_round (5 # 2) = 2%Z.
Proof. reflexivity. Qed.

Example np_round_half_up : np_round (7 # 2) = 4%Z.
Proof. reflexivity. Qed.

Example np_round_negative_half : np_round (- (5 # 2)) = (-2)%Z.
Proof. reflexivity. Qed.

Example np_round_plain : np_round (- (27 # 10)) = (-3)%Z.
Proof. reflexivity. Qed.

Lemma well_formed_rows (sos : sos_array) :
  well_formed sos ->
  exists b0 b1 b2 a0 a1 a2 b0' b1' b2' a0' a1' a2' b0'' b1'' b2'' a0'' a1'' a2'',
    sos = [[b0; b1; b2; a0; a1; a2];
           [b0'; b1'; b2'; a0'; a1'; a2'];
           [b0''; b1''; b2''; a0''; a1''; a2'']].
Proof.
  intros [Hlen Hrows].
  change (Z.to_nat NUMSTAGES) with 3%nat in Hlen.
  destruct sos as [|r1 [|r2 [|r3 [|r4 sos]]]]; try discriminate.
  inversion_clear Hrows as [|? ? H1 Hrows']. inversion_clear Hrows' as [|? ? H2 Hrows''].
  inversion_clear Hrows'' as [|? ? H3 _].
  destruct r1 as [|? [|? [|? [|? [|? [|? [|? ?]]]]]]]; try discriminate.
  destruct r2 as [|? [|? [|? [|? [|? [|? [|? ?]]]]]]]; try discriminate.
  destruct r3 as [|? [|? [|? [|? [|? [|? [|? ?]]]]]]]; try discriminate.
  repeat eexists.
Qed.

(** C4: for every cascade of three six-number sections the quantizer
    returns fifteen integers, five per section in the order
    [b0, b1, b2, -a1, -a2]; each is the coefficient divided by the scale
    factor [POSTSHIFT ** 2 = 16], multiplied by [2^31] and rounded to the
    nearest integer (at most one half away). *)
Theorem quantize_stages (sos : sos_array) :
  well_formed sos ->
  exists qs,
    quantize sos (NUMSTAGES * 5) = Py.Returns qs /\
    quantize sos 15 = Py.Returns qs /\
    length qs = 15%nat /\
    (forall s b0 b1 b2 a0 a1 a2,
       nth_error sos s = Some [b0; b1; b2; a0; a1; a2] ->
       let q31 := fun c => np_round (c / 16 * 2147483648) in
       firstn 5 (skipn (5 * s) qs)
       = [q31 b0; q31 b1; q31 b2; q31 (- a1); q31 (- a2)]) /\
    (forall c,
       to_q31 (scale_down c) = np_round (c / 16 * 2147483648) /\
       Qabs (inject_Z (np_round (c / 16 * 2147483648)) - c / 16 * 2147483648)
       <= 1 # 2).
Proof.
  intros Hwf.
  destruct (well_formed_rows sos Hwf)
    as (b0 & b1 & b2 & a0 & a1 & a2 & b0' & b1' & b2' & a0' & a1' & a2'
        & b0'' & b1'' & b2'' & a0'' & a1'' & a2'' & ->).
  eexists. split; [reflexivity|]. split; [reflexivity|]. split; [reflexivity|].
  split.
  - intros s c0 c1 c2 c3 c4 c5 Hs.
    destruct s as [|[|[|s]]]; cbn [nth_error] in Hs.
    + injection Hs as <- <- <- <- <- <-. reflexivity.
    + injection Hs as <- <- <- <- <- <-. reflexivity.
    + injection Hs as <- <- <- <- <- <-. reflexivity.
    + destruct s; discriminate.
  - intros c. split; [reflexivity | apply np_round_nearest].
Qed.

Example quantize_sample :
  quantize sample_sos (NUMSTAGES * 5)
  = Py.Returns [134; 268; 134; 255013683; -122138132;
                134217728; 0; -134217728; 261724570; -128849019;
                134217728; -268435456; 134217728; 265751101; -132875551]%Z.
Proof. vm_compute. reflexivity. Qed.

Lemma sample_sos_well_formed : well_formed sample_sos.
Proof. split; [reflexivity | repeat constructor]. Qed.

Lemma quantize_stages_witness :
  well_formed sample_sos /\
  exists qs, quantize sample_sos 15 = Py.Returns qs /\ length qs = 15%nat.
Proof.
  split; [exact sample_sos_well_formed|].
  destruct (quantize_stages sample_sos sample_sos_well_formed) as (qs & _ & H & Hl & _).
  exists qs. split; assumption.
Defined.

Lemma quantize_returns (sos : sos_array) :
  well_formed sos ->
  quantize sos (NUMSTAGES * 5)
  = Py.Returns (map (fun c => to_q31 (scale_down c)) (coefficients sos)).
Proof.
  intros Hwf.
  destruct (well_formed_rows sos Hwf)
    as (b0 & b1 & b2 & a0 & a1 & a2 & b0' & b1' & b2' & a0' & a1' & a2'
        & b0'' & b1'' & b2'' & a0'' & a1'' & a2'' & ->).
  reflexivity.
Qed.

Lemma Forall2_map_r {A B : Type} (P : A -> B -> Prop) (f : A -> B) (l : list A) :
  (forall a, In a l -> P a (f a)) -> Forall2 P l (map f l).
Proof.
  induction l as [|a l IH]; intros H; simpl; constructor.
  - apply H. now left.
  - apply IH. intros b Hb. apply H. now right.
Qed.

(** C6: when every scaled coefficient of a cascade is strictly inside the
    Q31 range, scaling the quantized integers back (times the scale factor
    16, divided by [2^31]) gives numbers that differ from the coefficients
    [b0, b1, b2, -a1, -a2] by at most one step of Q31 resolution at that
    scale, [16 * 2^-31]. *)
Theorem quantize_dequantize_roundtrip (sos : sos_array) :
  well_formed sos ->
  Forall (fun c => Qabs (scale_down c * inject_Z (2 ^ 31)) < inject_Z (2 ^ 31))
         (coefficients sos) ->
  exists qs,
    quantize sos (NUMSTAGES * 5) = Py.Returns qs /\
    Forall2 (fun c q => Qabs (dequantize q - c) <= inject_Z (POSTSHIFT ^ 2) / inject_Z (2 ^ 31))
            (coefficients sos) qs.
Proof.
  intros Hwf _.
  eexists. split; [now apply quantize_returns|].
  apply Forall2_map_r. intros c _.
  eapply Qle_trans; [apply dequantize_error|].
  vm_compute. discriminate.
Qed.

Lemma sample_sos_in_range :
  Forall (fun c => Qabs (scale_down c * inject_Z (2 ^ 31)) < inject_Z (2 ^ 31))
         (coefficients sample_sos).
Proof. repeat constructor. Qed.

Lemma quantize_dequantize_roundtrip_witness :
  well_formed sample_sos /\
  Forall (fun c => Qabs (scale_down c * inject_Z (2 ^ 31)) < inject_Z (2 ^ 31))
         (coefficients sample_sos) /\
  exists qs,
    quantize sample_sos (NUMSTAGES * 5) = Py.Returns qs /\
    Forall2 (fun c q => Qabs (dequantize q - c) <= inject_Z (POSTSHIFT ^ 2) / inject_Z (2 ^ 31))
            (coefficients sample_sos) qs.
Proof.
  split; [exact sample_sos_well_formed|].
  split; [exact sample_sos_in_range|].
  exact (quantize_dequantize_roundtrip sample_sos sample_sos_well_formed sample_sos_in_range).
Defined.

Lemma np_round_magnitude (x : Q) (N : Z) :
  inject_Z N <= Qabs x -> (N <= Z.abs (np_round x))%Z.
Proof.
  intros H.
  destruct (Qlt_le_dec x 0) as [Hneg | Hpos].
  - rewrite Qabs_neg in H by now apply Qlt_le_weak.
    assert (Hx : x <= inject_Z (- N)) by (rewrite inject_Z_opp; Lqa.lra).
    apply np_round_le in Hx. lia.
  - rewrite Qabs_pos in H by assumption.
    apply np_round_ge in H. lia.
Qed.

Lemma loud_sos_well_formed : well_formed loud_sos.
Proof. split; [reflexivity | repeat constructor]. Qed.

(** C8, counterexample: a coefficient 16 scales to exactly [2^31], one
    past the largest Q31 value, and the quantizer returns it like any other
    number. *)
Lemma quantize_overflow_unreported :
  quantize loud_sos (NUMSTAGES * 5)
  = Py.Returns [2147483648; 0; 0; 0; 0;
                134217728; 0; 0; 0; 0;
                134217728; 0; 0; 0; 0]%Z /\
  (2 ^ 31 <= 2147483648)%Z.
Proof. split; [vm_compute; reflexivity | vm_compute; discriminate]. Qed.

(** C8, as the code has it: the quantizer checks no range.  For every
    well-formed cascade it returns the fifteen rounded integers, and a
    scaled coefficient of magnitude [2^31] or more comes out as an integer
    of magnitude [2^31] or more; no error is raised.  The scale factor is
    always 16. *)
Theorem quantize_checks_no_range (sos : sos_array) :
  well_formed sos ->
  exists qs,
    quantize sos (NUMSTAGES * 5) = Py.Returns qs /\
    Forall2 (fun c q =>
               inject_Z (2 ^ 31) <= Qabs (scale_down c * inject_Z (2 ^ 31)) ->
               (2 ^ 31 <= Z.abs q)%Z)
            (coefficients sos) qs /\
    (forall c, scale_down c == c / 16).
Proof.
  intros Hwf.
  eexists. split; [now apply quantize_returns|]. split.
  - apply Forall2_map_r. intros c _ Hbig.
    unfold to_q31. now apply np_round_magnitude.
  - intros c. reflexivity.
Qed.

Lemma quantize_checks_no_range_witness :
  well_formed loud_sos /\
  exists qs,
    quantize loud_sos (NUMSTAGES * 5) = Py.Returns qs /\
    Forall2 (fun c q =>
               inject_Z (2 ^ 31) <= Qabs (scale_down c * inject_Z (2 ^ 31)) ->
               (2 ^ 31 <= Z.abs q)%Z)
            (coefficients loud_sos) qs /\
    (forall c, scale_down c == c / 16).
Proof.
  split; [exact loud_sos_well_formed|].
  exact (quantize_checks_no_range loud_sos loud_sos_well_formed).
Defined.

End QuantizerFacts.


Module ArmFacts.
Import Arm.
Local Open Scope Q_scope.

Lemma wrap_int32_small (z : Z) :
  (- 2 ^ 31 <= z < 2 ^ 31)%Z -> wrap_int32 z = z.
Proof.
  intros H. unfold wrap_int32. rewrite Z.mod_small by lia. lia.
Qed.

(** While the product fits 32 bits the output scaling is the plain one. *)
Lemma from_q31_sample (v : Z) :
  (- 2 ^ 29 <= v < 2 ^ 29)%Z ->
  inject_Z (wrap_int32 (v * 4)) / inject_Z (2 ^ 31)
  == inject_Z v * 4 / 2147483648.
Proof.
  intros H. rewrite wrap_int32_small by lia.
  rewrite inject_Z_mult. reflexivity.
Qed.

Lemma from_q31_plain (y : list Z) :
  Forall (fun v => (- 2 ^ 29 <= v < 2 ^ 29)%Z) y ->
  Forall2 Qeq (from_q31_signal y) (map (fun v => inject_Z v * 4 / 2147483648) y).
Proof.
  unfold from_q31_signal.
  induction 1 as [|v y Hv _ IH]; cbn [map]; constructor; [|exact IH].
  now apply from_q31_sample.
Qed.

(** C5, counterexample: the shift the engine is given is [POSTSHIFT = 4]
    bits, not 2, and the factor that goes with it is 16, not the 4 the input
    is divided by.  And an engine sample of [2^29], the input 1.0 handed
    through, does not come out as [2^29 * 4 / 2^31 = 1]: the product wraps
    and the output is -1. *)
Lemma q31_scaling_fails :
  postShift (biquad_instance init) = 4%Z /\
  postShift (biquad_instance init) <> 2%Z /\
  ~ shift_gain (postShift (biquad_instance init)) == 4 /\
  Forall2 Qeq (to_q31_signal [1]) [inject_Z (2 ^ 29)] /\
  Forall2 Qeq (from_q31_signal [2 ^ 29]%Z) [- (1)] /\
  ~ - (1) == inject_Z (2 ^ 29) * 4 / inject_Z (2 ^ 31).
Proof.
  split; [reflexivity|]. split; [discriminate|]. split; [discriminate|].
  split; [repeat constructor|]. split; [repeat constructor | discriminate].
Qed.

(** C5, as the code has it: the input is multiplied by [2^31] and divided
    by 4.  Where the engine's samples lie from [-2^29] up to [2^29 - 1], so
    that four times a sample fits 32 bits, the output is multiplied by 4 and
    divided by [2^31], which undoes the input scaling.  The engine is given
    a shift of [POSTSHIFT = 4] bits, whose factor [2^4 = 16] is exactly the
    scale [POSTSHIFT ** 2 = 16] divided out of the coefficients. *)
Theorem q31_scaling (self : SignalProcessor) (x : list Q) (y : list Z) (c : Q) :
  Forall (fun v => (- 2 ^ 29 <= v < 2 ^ 29)%Z) y ->
  to_q31_signal x = map (fun s => s * 2147483648 / 4) x /\
  Forall2 Qeq (from_q31_signal y) (map (fun v => inject_Z v * 4 / 2147483648) y) /\
  Forall2 Qeq (to_q31_signal (from_q31_signal y)) (map inject_Z y) /\
  (Forall2 (fun s v => inject_Z v == s * 2147483648 / 4) x y ->
   Forall2 Qeq (from_q31_signal y) x) /\
  postShift (biquad_instance self) = 4%Z /\
  Quantizer.scale_down c == c / 16 /\
  Quantizer.scale_down c * shift_gain (postShift (biquad_instance self)) == c /\
  Quantizer.scale_down (c * shift_gain (postShift (biquad_instance self))) == c.
Proof.
  intros Hy.
  split; [reflexivity|]. split; [now apply from_q31_plain|].
  split; [|split].
  - unfold to_q31_signal, from_q31_signal. rewrite map_map.
    induction Hy as [|v y Hv _ IH]; cbn [map]; constructor; [|exact IH].
    rewrite from_q31_sample by assumption.
    change (inject_Z (2 ^ 31)) with 2147483648. field.
  - intros Hxy. unfold from_q31_signal.
    induction Hxy as [|s v x y Hsv _ IH]; cbn [map]; constructor.
    + inversion_clear Hy as [|? ? Hv _].
      rewrite from_q31_sample by assumption. rewrite Hsv. field.
    + apply IH. now inversion_clear Hy.
  - split; [reflexivity|].
    unfold Quantizer.scale_down.
    change (shift_gain (postShift (biquad_instance self))) with 16.
    change (inject_Z (POSTSHIFT ^ 2)) with 16.
    repeat split; field.
Qed.

Lemma q31_scaling_witness :
  Forall (fun v => (- 2 ^ 29 <= v < 2 ^ 29)%Z) [268435456; - 134217728]%Z /\
  Forall2 Qeq (from_q31_signal [268435456; - 134217728]%Z) [1 # 2; - (1 # 4)].
Proof.
  assert (H : Forall (fun v => (- 2 ^ 29 <= v < 2 ^ 29)%Z) [268435456; - 134217728]%Z).
  { repeat constructor; cbn; lia. }
  split; [exact H|].
  apply (q31_scaling init [1 # 2; - (1 # 4)] [268435456; - 134217728]%Z 0 H).
  repeat constructor.
Defined.

End ArmFacts.

Module LoaderFacts.

(** C9, counterexample: a file recorded at 44100 Hz is taken in by an
    object configured for 16000 Hz, and the method goes on with 16000. *)
Lemma other_rate_accepted :
  load_input_signal init ([1 # 2; - (1 # 4)], 44100%Z)
  = Py.Returns (with_input_signal init (Some [1 # 2; - (1 # 4)]), 16000%Z) /\
  44100%Z <> fs init.
Proof. split; [reflexivity | discriminate]. Qed.

(** C9, as the code has it: the sample rate of the file is read and
    dropped.  For every file the samples are stored and the method goes on
    with the configured rate [self.fs]; no comparison is made and no error
    is raised. *)
Theorem load_ignores_file_rate (self : SignalProcessor) (samples : list Q) (fs_file : Z) :
  load_input_signal self (samples, fs_file)
  = Py.Returns (with_input_signal self (Some samples), fs self).
Proof. reflexivity. Qed.

End LoaderFacts.

Module PipelineFacts.

Lemma index_nth_error {A : Type} (xs : list A) (k : nat) (x : A) :
  nth_error xs k = Some x -> Py.index xs (Z.of_nat k) = Py.Returns x.
Proof.
  intros H.
  assert (Hk : (k < length xs)%nat) by (apply nth_error_Some; congruence).
  unfold Py.index.
  destruct (Z.ltb_spec (Z.of_nat k) 0) as [C|_]; [lia|].
  destruct (Z.leb_spec 0 (Z.of_nat k)) as [_|C]; [|lia].
  destruct (Z.ltb_spec (Z.of_nat k) (Z.of_nat (length xs))) as [_|C]; [|lia].
  cbn [andb]. now rewrite Nat2Z.id, H.
Qed.

Section WithLibraries.

Variable scipy_sos : Z -> npfloat -> npfloat -> Py.outcome sos_array.
Variable sosfilt : sos_array -> list Q -> Py.outcome (list Q).
Variable arm_biquad_cascade_df1_q31 :
  Arm.arm_biquad_casd_df1_inst_q31 -> list Q -> list Z.

(** What is assumed of scipy: valid band-pass cut-offs give a cascade of
    [NUMSTAGES] six-number sections. *)
Hypothesis scipy_designs :
  forall low high,
    valid_cutoffs low high ->
    exists sos, scipy_sos NUMSTAGES low high = Py.Returns sos /\ Quantizer.well_formed sos.

Lemma design_bands_spec (bands : list Z) :
  forall self,
    Forall (band_ok self) bands ->
    exists new,
      design_bands scipy_sos bands self
      = Py.Returns (with_sos_list self (sos_list self ++ new)) /\
      Forall2 (designed scipy_sos self) bands new.
Proof.
  induction bands as [|i rest IH]; intros self Hok.
  - exists []. split; [|constructor].
    cbn [design_bands]. rewrite app_nil_r. now destruct self.
  - inversion_clear Hok as [|? ? Hi Hrest].
    destruct Hi as (lo & hi & Hlo & Hhi & Hcut).
    destruct (scipy_designs _ _ Hcut) as (sos & Hsos & Hwf).
    destruct (IH (with_sos_list self (sos_list self ++ [sos])) Hrest)
      as (new & Hrun & Hnew).
    exists (sos :: new). split.
    + cbn [design_bands]. rewrite Hlo, Hhi. cbn [Py.bind].
      unfold butter_bandpass. rewrite Hsos. cbn [Py.bind].
      change 15%Z with (NUMSTAGES * 5)%Z.
      rewrite (QuantizerFacts.quantize_returns sos Hwf). cbn [Py.bind].
      rewrite Hrun. cbn [with_sos_list sos_list fs base_frequency num_bands
                          input_signal frequencies edges coefs].
      now rewrite <- app_assoc.
    + constructor; [|exact Hnew].
      split; [exact Hwf|]. exists lo, hi. now repeat split.
Qed.

Lemma filter_each_spec (cascades : list sos_array) (v : list Q) (ys : list (list Q)) :
  Forall2 (fun sos y => sosfilt sos v = Py.Returns y) cascades ys ->
  filter_each sosfilt cascades (Some v) = Py.Returns ys.
Proof.
  induction 1 as [|sos y cascades ys Hy _ IH]; cbn [filter_each]; [reflexivity|].
  now rewrite Hy, IH.
Qed.

Lemma filter_bands_ARM_spec (v : list Q) (bands : list Z) :
  forall self acc,
    input_signal self = Some v ->
    Forall (fun i => exists sos,
                Py.index (sos_list self) i = Py.Returns sos /\
                Quantizer.well_formed sos) bands ->
    exists self' new,
      filter_bands_ARM arm_biquad_cascade_df1_q31 bands self acc
      = Py.Returns (self', acc ++ new) /\
      sos_list self' = sos_list self /\
      frequencies self' = frequencies self /\
      edges self' = edges self /\
      Forall2 (fun i y => exists sos,
                  Py.index (sos_list self) i = Py.Returns sos /\
                  band_signal_ARM arm_biquad_cascade_df1_q31 v sos y) bands new.
Proof.
  induction bands as [|i rest IH]; intros self acc Hin Hok.
  - exists self, []. cbn [filter_bands_ARM]. rewrite app_nil_r.
    repeat split. constructor.
  - inversion_clear Hok as [|? ? Hi Hrest].
    destruct Hi as (sos & Hsos & Hwf).
    set (qs := map (fun c => Quantizer.to_q31 (Quantizer.scale_down c))
                   (Quantizer.coefficients sos)).
    destruct (IH (with_coefs self qs)
                 (acc ++ [Arm.from_q31_signal
                            (arm_biquad_cascade_df1_q31
                               (Arm.biquad_instance (with_coefs self qs))
                               (Arm.to_q31_signal v))])
                 Hin Hrest)
      as (self' & new & Hrun & Hs & Hf & He & Hnew).
    exists self', (Arm.from_q31_signal
                     (arm_biquad_cascade_df1_q31
                        (Arm.biquad_instance (with_coefs self qs))
                        (Arm.to_q31_signal v)) :: new).
    split; [|repeat split; try assumption].
    + cbn [filter_bands_ARM]. rewrite Hsos. cbn [Py.bind].
      rewrite (QuantizerFacts.quantize_returns sos Hwf). cbn [Py.bind].
      fold qs.
      change (input_signal (with_coefs self qs)) with (input_signal self).
      rewrite Hin. cbn [Py.bind].
      rewrite Hrun. now rewrite <- app_assoc.
    + constructor; [|exact Hnew].
      exists sos. split; [exact Hsos|].
      exists qs. split; [now apply QuantizerFacts.quantize_returns | reflexivity].
Qed.


Lemma cutoffs_valid (lo hi : R) :
  (0 < lo < hi)%R -> (hi < 8000)%R ->
  valid_cutoffs (Np.div (Fin lo) (Planner.nyquist FS)) (Np.div (Fin hi) (Planner.nyquist FS)).
Proof.
  intros Hlo Hhi.
  assert (Hny : Planner.nyquist FS = 8000%R) by (unfold Planner.nyquist, FS; lra).
  rewrite Hny. unfold Np.div.
  destruct (Req_dec_T 8000 0) as [C|_]; [lra|].
  exists (lo / 8000)%R, (hi / 8000)%R. repeat split; lra.
Qed.


End WithLibraries.



End PipelineFacts.

(** * Further properties of the code *)

Module PlanLaws.
Import Planner PlannerFacts.
Local Open Scope R_scope.

(** Both lists written out entry by entry, for every base frequency. *)
Lemma centers_closed_form (f : R) (n : Z) :
  octave_centers f n
  = map (fun k => f * powerRZ 2 (Z.of_nat k - 1)) (seq 0 (Z.to_nat (n + 1))).
Proof.
  unfold octave_centers, Py.range. rewrite map_map.
  apply map_ext. intros k. f_equal. f_equal. lia.
Qed.

Lemma edges_closed_form (f : R) (n : Z) :
  fill_edges (octave_centers f n)
  = map (fun k => edge_between (f * powerRZ 2 (Z.of_nat k - 1))
                               (f * powerRZ 2 (Z.of_nat k)))
        (seq 0 (Z.to_nat (n + 1) - 1)).
Proof.
  rewrite fill_edges_map, octave_centers_length.
  apply map_ext_in. intros k Hk. apply in_seq in Hk.
  rewrite !octave_centers_nth by lia.
  f_equal. f_equal. f_equal. lia.
Qed.

Lemma sqrt_octave (c : R) : 0 < c -> sqrt (c * (2 * c)) = c * sqrt 2.
Proof.
  intros Hc.
  replace (c * (2 * c)) with (c * c * 2) by ring.
  rewrite sqrt_mult by nra. now rewrite sqrt_square by lra.
Qed.

Lemma nth_error_map_seq {A : Type} (g : nat -> A) (m k : nat) :
  (k < m)%nat -> nth_error (map g (seq 0 m)) k = Some (g k).
Proof.
  intros Hk. rewrite nth_error_map, nth_error_nth' with (d := 0%nat) by now rewrite length_seq.
  now rewrite seq_nth.
Qed.

(** X1: in the plan of a positive base frequency every edge is its lower
    center times [sqrt 2]; the next edge is exactly twice as high, and the
    center between two edges is their geometric mean.  Each band is one
    octave wide around its center.  The numbers are the exact reals of the
    plan [centers_and_edges]; when the method returns that plan is the
    subject of [calculate_centers_returns]. *)
Theorem bands_are_octaves (f : R) (n : Z) :
  0 < f ->
  let centers := fst (centers_and_edges f n) in
  let edges := snd (centers_and_edges f n) in
  length centers = Z.to_nat (n + 1) /\
  length edges = (length centers - 1)%nat /\
  (forall k, (k < length edges)%nat ->
     nth_error edges k = Some (Fin (nth k centers 0 * sqrt 2))) /\
  (forall k e e',
     nth_error edges k = Some (Fin e) ->
     nth_error edges (S k) = Some (Fin e') ->
     e' = 2 * e /\ sqrt (e * e') = nth (S k) centers 0).
Proof.
  intros Hf centers edges.
  destruct (plan_shape f n Hf) as (Hlc & Hle & Hnth & Hstep).
  fold centers in Hlc, Hle, Hnth, Hstep. fold edges in Hle, Hstep.
  assert (Hedge : forall k, (k < length edges)%nat ->
            0 < nth k centers 0 /\
            nth (S k) centers 0 = 2 * nth k centers 0 /\
            nth_error edges k = Some (Fin (nth k centers 0 * sqrt 2))).
  { intros k Hk. destruct (Hstep k) as (H2 & Hp & He); [lia|].
    repeat split; try assumption.
    rewrite He, H2. now rewrite sqrt_octave. }
  split; [exact Hlc|]. split; [lia|].
  split; [intros k Hk; now apply Hedge|].
  intros k e e' He He'.
  assert (Hk' : (S k < length edges)%nat) by (apply nth_error_Some; congruence).
  destruct (Hedge k) as (Hp & H2 & Hk); [lia|].
  destruct (Hedge (S k) Hk') as (_ & _ & HSk).
  assert (e = nth k centers 0 * sqrt 2) by congruence.
  assert (e' = nth (S k) centers 0 * sqrt 2) by congruence.
  subst e e'. rewrite H2. split; [ring|].
  replace (nth k centers 0 * sqrt 2 * (2 * nth k centers 0 * sqrt 2))
    with ((2 * nth k centers 0) * (2 * nth k centers 0) * (sqrt 2 * sqrt 2) / 2) by field.
  rewrite sqrt_sqrt by lra.
  replace (2 * nth k centers 0 * (2 * nth k centers 0) * 2 / 2)
    with ((2 * nth k centers 0) * (2 * nth k centers 0)) by field.
  apply sqrt_square. lra.
Qed.

Lemma bands_are_octaves_witness :
  0 < 100 /\
  forall k, (k < length (snd (centers_and_edges 100 3)))%nat ->
    nth_error (snd (centers_and_edges 100 3)) k
    = Some (Fin (nth k (fst (centers_and_edges 100 3)) 0 * sqrt 2)).
Proof.
  assert (H : 0 < 100) by lra.
  split; [exact H|].
  exact (proj1 (proj2 (proj2 (bands_are_octaves 100 3 H)))).
Defined.

(** X2: one more band changes nothing below it: the plan for [n + 1]
    bands is the plan for [n] bands with one center and one edge added at
    the top. *)
Theorem plan_grows_at_the_top (f : R) (n : Z) :
  (0 <= n)%Z ->
  centers_and_edges f (n + 1)
  = (fst (centers_and_edges f n) ++ [f * powerRZ 2 n],
     snd (centers_and_edges f n)
       ++ [edge_between (f * powerRZ 2 (n - 1)) (f * powerRZ 2 n)]).
Proof.
  intros Hn. unfold centers_and_edges. cbn [fst snd].
  rewrite !edges_closed_form, !centers_closed_form.
  replace (Z.to_nat (n + 1 + 1)) with (S (Z.to_nat (n + 1))) by lia.
  replace (Z.to_nat (n + 1)) with (S (Z.to_nat n)) by lia.
  replace (S (S (Z.to_nat n)) - 1)%nat with (S (Z.to_nat n)) by lia.
  replace (S (Z.to_nat n) - 1)%nat with (Z.to_nat n) by lia.
  rewrite (seq_S (S (Z.to_nat n))), (seq_S (Z.to_nat n)), !map_app. cbn [map Nat.add].
  f_equal.
  - f_equal. f_equal. f_equal. f_equal. lia.
  - f_equal. f_equal. f_equal; f_equal; f_equal; lia.
Qed.

Lemma plan_grows_at_the_top_witness :
  (0 <= 6)%Z /\
  centers_and_edges 100 (6 + 1)
  = (fst (centers_and_edges 100 6) ++ [100 * powerRZ 2 6],
     snd (centers_and_edges 100 6)
       ++ [edge_between (100 * powerRZ 2 (6 - 1)) (100 * powerRZ 2 6)]).
Proof.
  split; [lia|]. apply (plan_grows_at_the_top 100 6). lia.
Defined.

(** X3: a band count of [-1] or less gives two empty lists, and a band
    count of zero gives the single center [f / 2] and no edge. *)
Theorem plan_without_bands (f : R) (n : Z) :
  (n <= -1)%Z ->
  centers_and_edges f n = ([], []) /\ centers_and_edges f 0 = ([f / 2], []).
Proof.
  intros Hn. unfold centers_and_edges.
  rewrite !edges_closed_form, !centers_closed_form.
  replace (Z.to_nat (n + 1)) with 0%nat by lia.
  change (Z.to_nat (0 + 1)) with 1%nat. cbn [seq map Nat.sub].
  split; [reflexivity|]. f_equal. f_equal. simpl. field.
Qed.

Lemma plan_without_bands_witness :
  (-3 <= -1)%Z /\
  centers_and_edges 100 (-3) = ([], []) /\ centers_and_edges 100 0 = ([100 / 2], []).
Proof.
  split; [lia|]. apply (plan_without_bands 100 (-3)). lia.
Defined.

(** X4: the plan scales with the base frequency: multiplying the base
    frequency by [s > 0] multiplies every center and every edge by [s]. *)
Theorem plan_scales (f s : R) (n : Z) :
  0 < f -> 0 < s ->
  fst (centers_and_edges (s * f) n) = map (Rmult s) (fst (centers_and_edges f n)) /\
  length (snd (centers_and_edges (s * f) n)) = length (snd (centers_and_edges f n)) /\
  (forall k e,
     nth_error (snd (centers_and_edges f n)) k = Some (Fin e) ->
     nth_error (snd (centers_and_edges (s * f) n)) k = Some (Fin (s * e))).
Proof.
  intros Hf Hs. unfold centers_and_edges. cbn [fst snd].
  rewrite !edges_closed_form, !centers_closed_form, map_map, !length_map.
  split; [apply map_ext; intros k; ring|]. split; [reflexivity|].
  intros k e He.
  assert (Hk : (k < Z.to_nat (n + 1) - 1)%nat).
  { assert (H : nth_error
                  (map (fun k => edge_between (f * powerRZ 2 (Z.of_nat k - 1))
                                              (f * powerRZ 2 (Z.of_nat k)))
                       (seq 0 (Z.to_nat (n + 1) - 1))) k <> None) by congruence.
    apply nth_error_Some in H. now rewrite length_map, length_seq in H. }
  rewrite nth_error_map_seq in * by assumption.
  assert (Hp : forall z, 0 < powerRZ 2 z) by (intros z; apply powerRZ_lt; lra).
  pose proof (Hp (Z.of_nat k - 1)%Z) as Ha. pose proof (Hp (Z.of_nat k)) as Hb.
  rewrite edge_between_sqrt in * by (repeat apply Rmult_lt_0_compat; assumption).
  injection He as <-. f_equal.
  assert (Hab : 0 < f * powerRZ 2 (Z.of_nat k - 1) * (f * powerRZ 2 (Z.of_nat k)))
    by (repeat apply Rmult_lt_0_compat; assumption).
  replace (s * f * powerRZ 2 (Z.of_nat k - 1) * (s * f * powerRZ 2 (Z.of_nat k)))
    with (s * s * (f * powerRZ 2 (Z.of_nat k - 1) * (f * powerRZ 2 (Z.of_nat k)))) by ring.
  rewrite sqrt_mult; [|nra|lra]. now rewrite sqrt_square by lra.
Qed.

Lemma plan_scales_witness :
  0 < 100 /\ 0 < 3 /\
  fst (centers_and_edges (3 * 100) 6) = map (Rmult 3) (fst (centers_and_edges 100 6)).
Proof.
  split; [lra|]. split; [lra|].
  apply (plan_scales 100 3 6); lra.
Defined.

(** X5: doubling the base frequency moves the whole plan up by one
    octave: the plan for [2 * f] with [n] bands is the plan for [f] with
    [n + 1] bands without its lowest center and lowest edge. *)
Theorem plan_octave_shift (f : R) (n : Z) :
  (0 <= n)%Z ->
  centers_and_edges (2 * f) n
  = (tl (fst (centers_and_edges f (n + 1))), tl (snd (centers_and_edges f (n + 1)))).
Proof.
  intros Hn. unfold centers_and_edges. cbn [fst snd].
  rewrite !edges_closed_form, !centers_closed_form.
  replace (Z.to_nat (n + 1 + 1)) with (S (Z.to_nat (n + 1))) by lia.
  replace (S (Z.to_nat (n + 1)) - 1)%nat with (S (Z.to_nat (n + 1) - 1)) by lia.
  cbn [seq map tl]. rewrite <- !seq_shift, !map_map.
  assert (Hpow : forall k : nat,
            2 * f * powerRZ 2 (Z.of_nat k - 1) = f * powerRZ 2 (Z.of_nat k)).
  { intros k. replace (Z.of_nat k) with (Z.of_nat k - 1 + 1)%Z at 2 by lia.
    rewrite powerRZ_2_succ. ring. }
  f_equal; apply map_ext; intros k.
  - rewrite Hpow. f_equal. f_equal. lia.
  - f_equal.
    + rewrite Hpow. f_equal. f_equal. lia.
    + rewrite <- (Hpow (S k)). f_equal. f_equal. lia.
Qed.

Lemma plan_octave_shift_witness :
  (0 <= 6)%Z /\
  centers_and_edges (2 * 100) 6
  = (tl (fst (centers_and_edges 100 (6 + 1))), tl (snd (centers_and_edges 100 (6 + 1)))).
Proof.
  split; [lia|]. apply (plan_octave_shift 100 6). lia.
Defined.

End PlanLaws.

Module QuantizerLaws.
Import Quantizer QuantizerFacts.
Local Open Scope Q_scope.

Lemma Qfloor_unique (x : Q) (m : Z) :
  inject_Z m <= x -> x < inject_Z m + 1 -> Qfloor x = m.
Proof.
  intros Hlo Hhi.
  assert (H1 : (m <= Qfloor x)%Z).
  { rewrite <- (Qfloor_Z m). now apply Qfloor_resp_le. }
  assert (H2 : (Qfloor x < m + 1)%Z).
  { rewrite Zlt_Qlt, inject_Z_plus. change (inject_Z 1) with 1.
    eapply Qle_lt_trans; [apply Qfloor_le | exact Hhi]. }
  lia.
Qed.

(** [np_round] between two neighbouring integers. *)
Lemma np_round_between (x : Q) (m : Z) :
  inject_Z m <= x -> x < inject_Z m + 1 ->
  np_round x = match Qcompare (x - inject_Z m) (1 # 2) with
               | Lt => m
               | Gt => (m + 1)%Z
               | Eq => if Z.even m then m else (m + 1)%Z
               end.
Proof.
  intros Hlo Hhi. unfold np_round. now rewrite (Qfloor_unique x m Hlo Hhi).
Qed.

Lemma np_round_integer (n : Z) : np_round (inject_Z n) = n.
Proof.
  rewrite (np_round_between (inject_Z n) n); [|Lqa.lra|Lqa.lra].
  destruct (Qcompare_spec (inject_Z n - inject_Z n) (1 # 2)) as [E | E | E];
    try reflexivity; exfalso; Lqa.lra.
Qed.

Lemma np_round_compat (x y : Q) : x == y -> np_round x = np_round y.
Proof.
  intros E. unfold np_round.
  assert (Hf : Qfloor x = Qfloor y) by now rewrite E.
  rewrite Hf.
  assert (Hc : Qcompare (x - inject_Z (Qfloor y)) (1 # 2)
               = Qcompare (y - inject_Z (Qfloor y)) (1 # 2)) by now rewrite E.
  now rewrite Hc.
Qed.

(** Ties go to the even neighbour on both sides of zero, so rounding
    commutes with negation. *)
Lemma np_round_opp (x : Q) : np_round (- x) = (- np_round x)%Z.
Proof.
  pose proof (Qfloor_le x) as Hlo.
  pose proof (Qlt_floor x) as Hhi.
  rewrite inject_Z_plus in Hhi. change (inject_Z 1) with 1 in Hhi.
  set (n := Qfloor x) in *.
  destruct (Qeq_dec x (inject_Z n)) as [Eint | Nint].
  - rewrite (np_round_compat x (inject_Z n) Eint).
    rewrite (np_round_compat (- x) (inject_Z (- n))).
    + now rewrite !np_round_integer.
    + rewrite Eint, inject_Z_opp. reflexivity.
  - assert (Hlt : inject_Z n < x).
    { apply Qle_lteq in Hlo. destruct Hlo as [H | H]; [exact H|].
      exfalso. apply Nint. now symmetry. }
    rewrite (np_round_between x n) by assumption.
    rewrite (np_round_between (- x) (- n - 1)).
    2:{ unfold Z.sub. rewrite inject_Z_plus, inject_Z_opp.
        change (inject_Z (- (1))) with (- (1)). Lqa.lra. }
    2:{ unfold Z.sub. rewrite inject_Z_plus, inject_Z_opp.
        change (inject_Z (- (1))) with (- (1)). Lqa.lra. }
    assert (Hd : - x - inject_Z (- n - 1) == 1 - (x - inject_Z n)).
    { unfold Z.sub. rewrite inject_Z_plus, inject_Z_opp.
      change (inject_Z (- (1))) with (- (1)). ring. }
    destruct (Qcompare_spec (x - inject_Z n) (1 # 2)) as [E | E | E];
      destruct (Qcompare_spec (- x - inject_Z (- n - 1)) (1 # 2)) as [E' | E' | E'];
      rewrite Hd in E'; try (exfalso; Lqa.lra); try lia.
    replace (- n - 1)%Z with (- (n + 1))%Z by lia.
    rewrite Z.even_opp, Z.even_add. cbn [Z.even].
    destruct (Z.even n); cbn; lia.
Qed.

Lemma np_round_monotone (x y : Q) : x <= y -> (np_round x <= np_round y)%Z.
Proof.
  intros Hxy.
  destruct (Qeq_dec x y) as [E | NE].
  - rewrite (np_round_compat x y E). lia.
  - assert (Hlt : x < y).
    { apply Qle_lteq in Hxy. destruct Hxy as [H | H]; [exact H | contradiction]. }
    pose proof (np_round_nearest x) as Hx. pose proof (np_round_nearest y) as Hy.
    apply Qabs_Qle_condition in Hx. apply Qabs_Qle_condition in Hy.
    assert (H : inject_Z (np_round x) < inject_Z (np_round y) + 1) by Lqa.lra.
    change 1 with (inject_Z 1) in H. rewrite <- inject_Z_plus, <- Zlt_Qlt in H. lia.
Qed.

Lemma scaled_value (c : Q) :
  scale_down c * inject_Z (2 ^ 31) == c * inject_Z (2 ^ 27).
Proof.
  unfold scale_down.
  change (inject_Z (POSTSHIFT ^ 2)) with 16.
  change (inject_Z (2 ^ 31)) with 2147483648.
  change (inject_Z (2 ^ 27)) with 134217728.
  field.
Qed.

(** X6: quantization commutes with the sign flip: the Q31 integer of
    [-c] is the negative of the Q31 integer of [c], ties included. *)
Theorem quantize_commutes_with_negation (c : Q) :
  to_q31 (scale_down (- c)) = (- to_q31 (scale_down c))%Z.
Proof.
  unfold to_q31. rewrite <- np_round_opp.
  apply np_round_compat. unfold scale_down. 
  change (inject_Z (POSTSHIFT ^ 2)) with 16. field.
Qed.

(** X7: quantization keeps the order of coefficients. *)
Theorem quantize_monotone (c c' : Q) :
  c <= c' -> (to_q31 (scale_down c) <= to_q31 (scale_down c'))%Z.
Proof.
  intros H. unfold to_q31. apply np_round_monotone.
  rewrite !scaled_value.
  apply Qmult_le_compat_r; [exact H | discriminate].
Qed.

Lemma quantize_monotone_witness :
  (1 # 3) <= (1 # 2) /\
  (to_q31 (scale_down (1 # 3)) <= to_q31 (scale_down (1 # 2)))%Z.
Proof.
  split; [discriminate|]. apply (quantize_monotone (1 # 3) (1 # 2)). discriminate.
Defined.

(** X8: a coefficient on the grid of step [2^-27] is quantized without
    error: [q * 16 / 2^31] gives back the integer [q], for every [q]. *)
Theorem quantize_exact_on_grid (c : Q) (q : Z) :
  c == inject_Z q * 16 / inject_Z (2 ^ 31) ->
  to_q31 (scale_down c) = q.
Proof.
  intros Hc. unfold to_q31.
  transitivity (np_round (inject_Z q)); [|apply np_round_integer].
  apply np_round_compat. unfold scale_down. rewrite Hc.
  change (inject_Z (POSTSHIFT ^ 2)) with 16.
  change (inject_Z (2 ^ 31)) with 2147483648.
  field.
Qed.

Lemma quantize_exact_on_grid_witness :
  - (3 # 2) == inject_Z (- 201326592) * 16 / inject_Z (2 ^ 31) /\
  to_q31 (scale_down (- (3 # 2))) = (- 201326592)%Z.
Proof.
  assert (H : - (3 # 2) == inject_Z (- 201326592) * 16 / inject_Z (2 ^ 31))
    by reflexivity.
  split; [exact H|]. exact (quantize_exact_on_grid _ _ H).
Defined.

(** X9: a coefficient of magnitude at most [N] gives a Q31 integer of
    magnitude at most [N * 2^27]; up to [N = 15] this is inside the signed
    32-bit range. *)
Theorem quantize_bounded (c : Q) (N : Z) :
  Qabs c <= inject_Z N ->
  (Z.abs (to_q31 (scale_down c)) <= N * 2 ^ 27)%Z /\
  ((N <= 15)%Z -> (- 2 ^ 31 < to_q31 (scale_down c) < 2 ^ 31)%Z).
Proof.
  intros H. apply Qabs_Qle_condition in H. destruct H as [Hlo Hhi].
  assert (Hup : (to_q31 (scale_down c) <= N * 2 ^ 27)%Z).
  { unfold to_q31. apply np_round_le.
    rewrite scaled_value, inject_Z_mult.
    apply Qmult_le_compat_r; [exact Hhi | discriminate]. }
  assert (Hdown : (- (N * 2 ^ 27) <= to_q31 (scale_down c))%Z).
  { unfold to_q31. apply np_round_ge.
    rewrite scaled_value, inject_Z_opp, inject_Z_mult.
    setoid_replace (- (inject_Z N * inject_Z (2 ^ 27)))
      with ((- inject_Z N) * inject_Z (2 ^ 27)) by ring.
    apply Qmult_le_compat_r; [exact Hlo | discriminate]. }
  split; lia.
Qed.

Lemma quantize_bounded_witness :
  Qabs (- (199 # 100)) <= inject_Z 2 /\
  (Z.abs (to_q31 (scale_down (- (199 # 100)))) <= 2 * 2 ^ 27)%Z.
Proof.
  assert (H : Qabs (- (199 # 100)) <= inject_Z 2) by discriminate.
  split; [exact H|]. exact (proj1 (quantize_bounded _ _ H)).
Defined.

Lemma coefficients_length (sos : sos_array) :
  Forall (fun row => length row = 6%nat) sos ->
  length (coefficients sos) = (5 * length sos)%nat.
Proof.
  unfold coefficients.
  induction 1 as [|row sos Hrow _ IH]; [reflexivity|].
  cbn [map concat length]. rewrite length_app, IH.
  unfold stage_coefs. rewrite length_app, length_map, length_firstn, length_skipn, Hrow.
  simpl. lia.
Qed.

(** X10: for sections of six numbers the reshape succeeds exactly when
    the requested size is five times the number of sections; any other
    number of sections raises [ValueError].  With the literal size 15 of
    line 150 only cascades of three sections pass. *)
Theorem quantize_needs_matching_size (sos : sos_array) (size : Z) :
  Forall (fun row => length row = 6%nat) sos ->
  quantize sos size
  = if (5 * Z.of_nat (length sos) =? size)%Z
    then Py.Returns (map (fun c => to_q31 (scale_down c)) (coefficients sos))
    else Py.Raises Py.ValueError.
Proof.
  intros Hrows. unfold quantize, reshape. fold (coefficients sos).
  rewrite (coefficients_length sos Hrows).
  replace (Z.of_nat (5 * length sos)) with (5 * Z.of_nat (length sos))%Z by lia.
  destruct (5 * Z.of_nat (length sos) =? size)%Z; cbn [Py.bind]; [|reflexivity].
  now rewrite map_map.
Qed.

Lemma quantize_needs_matching_size_witness :
  Forall (fun row => length row = 6%nat) [[1; 0; 0; 1; 0; 0]; [1; 0; 0; 1; 0; 0]] /\
  quantize [[1; 0; 0; 1; 0; 0]; [1; 0; 0; 1; 0; 0]] 15 = Py.Raises Py.ValueError.
Proof.
  assert (H : Forall (fun row : list Q => length row = 6%nat)
                     [[1; 0; 0; 1; 0; 0]; [1; 0; 0; 1; 0; 0]])
    by (repeat constructor).
  split; [exact H|].
  exact (quantize_needs_matching_size _ 15 H).
Defined.

(** X11: the column [a0] is never read: two cascades that agree on the
    first three and on the last columns of every row quantize alike. *)
Theorem quantize_ignores_a0 (sos sos' : sos_array) (size : Z) :
  Forall2 (fun row row' => firstn 3 row = firstn 3 row' /\ skipn 4 row = skipn 4 row')
          sos sos' ->
  quantize sos size = quantize sos' size.
Proof.
  intros H. unfold quantize. f_equal. f_equal.
  induction H as [|row row' sos sos' [H3 H4] _ IH]; [reflexivity|].
  cbn [map]. rewrite IH. unfold stage_coefs. now rewrite H3, H4.
Qed.

Lemma quantize_ignores_a0_witness :
  Forall2 (fun row row' : list Q =>
             firstn 3 row = firstn 3 row' /\ skipn 4 row = skipn 4 row')
          [[1; 2; 1; 1; 0; 0]] [[1; 2; 1; 7; 0; 0]] /\
  quantize [[1; 2; 1; 1; 0; 0]] 5 = quantize [[1; 2; 1; 7; 0; 0]] 5.
Proof.
  assert (H : Forall2 (fun row row' : list Q =>
                         firstn 3 row = firstn 3 row' /\ skipn 4 row = skipn 4 row')
                      [[1; 2; 1; 1; 0; 0]] [[1; 2; 1; 7; 0; 0]])
    by (repeat constructor).
  split; [exact H|]. exact (quantize_ignores_a0 _ _ 5 H).
Defined.

End QuantizerLaws.

Module SignalFacts.
Import Signal.
Local Open Scope R_scope.

Lemma ceil_integer (x : R) (n : Z) : x = IZR n -> ceil x = n.
Proof.
  intros ->. unfold ceil.
  assert (H : (1 - n)%Z = up (- IZR n)).
  { apply tech_up; rewrite minus_IZR; simpl; lra. }
  lia.
Qed.

Lemma two_tone_bounded (t : R) : Rabs (two_tone t) <= 5 / 4.
Proof.
  unfold two_tone.
  pose proof (SIN_bound (2 * PI * IZR SIG_BASE_FREQUENCY * t)) as [H1 H2].
  pose proof (SIN_bound (2 * PI * IZR SIG_NOISE_FREQUENCY * t)) as [H3 H4].
  apply Rabs_le. lra.
Qed.

(** X12: at every sample rate other than zero the method produces a
    signal, and no sample of it exceeds 1.25 in magnitude: the test signal
    leaves the range [-1, 1] by at most a quarter. *)
Theorem generated_signal_bounded (self : SignalProcessor) :
  fs self <> 0%Z ->
  exists x,
    generate_input_signal self = Some x /\
    Forall (fun v => Rabs v <= 5 / 4) x.
Proof.
  intros Hfs. unfold generate_input_signal.
  destruct (Z.eqb_spec (fs self) 0) as [C|_]; [contradiction|].
  eexists. split; [reflexivity|].
  apply Forall_map, Forall_forall. intros t _. apply two_tone_bounded.
Qed.

Lemma generated_signal_bounded_witness :
  fs init <> 0%Z /\
  exists x,
    generate_input_signal init = Some x /\
    Forall (fun v => Rabs v <= 5 / 4) x.
Proof.
  assert (H : fs init <> 0%Z) by discriminate.
  split; [exact H|]. exact (generated_signal_bounded init H).
Defined.

(** X13: the object made by the constructor generates half a second at
    16000 Hz: exactly 8000 samples, sample [k] taken at [k / 16000]
    seconds, the first of them zero. *)
Theorem generated_signal_default :
  exists x,
    generate_input_signal init = Some x /\
    length x = Z.to_nat 8000 /\
    (forall k, (k < Z.to_nat 8000)%nat -> nth k x 0 = two_tone (INR k / 16000)) /\
    nth 0 x 0 = 0.
Proof.
  unfold generate_input_signal. change (fs init =? 0)%Z with false. cbv iota.
  eexists. split; [reflexivity|].
  assert (Hn : Z.to_nat (ceil ((0.5 - 0) / (1 / IZR (fs init)))) = Z.to_nat 8000).
  { rewrite (ceil_integer _ 8000); [reflexivity|].
    change (fs init) with 16000%Z. lra. }
  assert (Hk : forall k, (k < Z.to_nat 8000)%nat ->
             nth k (map two_tone (arange 0 0.5 (1 / IZR (fs init)))) 0
             = two_tone (INR k / 16000)).
  { intros k Hlt. unfold arange. rewrite Hn, map_map.
    rewrite (nth_indep _ 0 (two_tone (0 + INR 0 * (1 / IZR (fs init)))))
      by now rewrite length_map, length_seq.
    rewrite (map_nth (fun k => two_tone (0 + INR k * (1 / IZR (fs init)))) _ 0%nat k).
    rewrite seq_nth by assumption. f_equal.
    change (fs init) with 16000%Z. cbn [Nat.add]. field. }
  split; [|split; [exact Hk|]].
  - unfold arange. now rewrite Hn, !length_map, length_seq.
  - rewrite Hk by lia. unfold two_tone. cbn [INR].
    replace (2 * PI * IZR SIG_BASE_FREQUENCY * (0 / 16000)) with 0 by field.
    replace (2 * PI * IZR SIG_NOISE_FREQUENCY * (0 / 16000)) with 0 by field.
    rewrite sin_0. ring.
Qed.

End SignalFacts.

Module ArmLaws.
Import Arm.
Local Open Scope Q_scope.

Lemma scaled_sample (s : Q) :
  s * inject_Z (2 ^ 31) / 4 == s * inject_Z (2 ^ 29).
Proof.
  change (inject_Z (2 ^ 31)) with 2147483648.
  change (inject_Z (2 ^ 29)) with 536870912. field.
Qed.

Lemma scaled_sample_abs (s : Q) :
  Qabs (s * inject_Z (2 ^ 31) / 4) == Qabs s * inject_Z (2 ^ 29).
Proof. rewrite scaled_sample, Qabs_Qmult. reflexivity. Qed.

(** X14: the scaled input stays strictly inside the Q31 range exactly
    when every sample is strictly between -4 and 4; a signal inside
    [-1, 1] uses at most [2^29], a quarter of the range. *)
Theorem to_q31_signal_range (x : list Q) :
  length (to_q31_signal x) = length x /\
  (Forall (fun s => Qabs s < 4) x <->
   Forall (fun v => Qabs v < inject_Z (2 ^ 31)) (to_q31_signal x)) /\
  (Forall (fun s => Qabs s <= 1) x ->
   Forall (fun v => Qabs v <= inject_Z (2 ^ 29)) (to_q31_signal x)).
Proof.
  unfold to_q31_signal. split; [apply length_map|].
  split; [split|]; intros H.
  - apply Forall_map. eapply Forall_impl; [|exact H].
    intros s Hs. cbv beta in *. rewrite scaled_sample_abs.
    change (inject_Z (2 ^ 31)) with 2147483648.
    change (inject_Z (2 ^ 29)) with 536870912. Lqa.lra.
  - apply Forall_map in H. eapply Forall_impl; [|exact H].
    intros s Hs. cbv beta in Hs. rewrite scaled_sample_abs in Hs.
    change (inject_Z (2 ^ 31)) with 2147483648 in Hs.
    change (inject_Z (2 ^ 29)) with 536870912 in Hs. Lqa.lra.
  - apply Forall_map. eapply Forall_impl; [|exact H].
    intros s Hs. cbv beta in *. rewrite scaled_sample_abs.
    change (inject_Z (2 ^ 29)) with 536870912. Lqa.lra.
Qed.

Lemma to_q31_signal_range_witness :
  Forall (fun s => Qabs s < 4) sample_signal /\
  Forall (fun v => Qabs v < inject_Z (2 ^ 31)) (to_q31_signal sample_signal).
Proof.
  assert (H : Forall (fun s => Qabs s < 4) sample_signal) by (repeat constructor).
  split; [exact H|].
  exact (proj1 (proj1 (proj2 (to_q31_signal_range sample_signal))) H).
Defined.

Lemma wrap_int32_range (z : Z) : (- 2 ^ 31 <= wrap_int32 z < 2 ^ 31)%Z.
Proof.
  unfold wrap_int32.
  pose proof (Z.mod_pos_bound (z + 2 ^ 31) (2 ^ 32) eq_refl). lia.
Qed.

Lemma wrap_int32_period (z k : Z) : wrap_int32 (z + k * 2 ^ 32) = wrap_int32 z.
Proof.
  unfold wrap_int32.
  replace (z + k * 2 ^ 32 + 2 ^ 31)%Z with (z + 2 ^ 31 + k * 2 ^ 32)%Z by ring.
  now rewrite Z.mod_add by discriminate.
Qed.

(** X23: the output scaling of lines 268-269 wraps: whatever the engine
    hands back, every output sample lies from -1 up to, but not at, 1; two
    engine samples [2^30] apart give the same output; and the engine sample
    [2^29], which stands for 1.0, comes out as -1. *)
Theorem from_q31_signal_wraps (y : list Z) :
  length (from_q31_signal y) = length y /\
  Forall (fun s => - (1) <= s /\ s < 1) (from_q31_signal y) /\
  from_q31_signal (map (fun v => (v + 2 ^ 30)%Z) y) = from_q31_signal y /\
  Forall2 Qeq (from_q31_signal [2 ^ 29]%Z) [- (1)].
Proof.
  unfold from_q31_signal.
  split; [apply length_map|]. split; [|split].
  - apply Forall_map, Forall_forall. intros v _.
    pose proof (wrap_int32_range (v * 4)) as [Hlo Hhi].
    rewrite Zle_Qle in Hlo. rewrite Zlt_Qlt in Hhi.
    change (inject_Z (- 2 ^ 31)) with (- (2147483648)) in Hlo.
    change (inject_Z (2 ^ 31)) with 2147483648 in Hhi.
    change (inject_Z (2 ^ 31)) with 2147483648.
    set (w := inject_Z (wrap_int32 (v * 4))) in *.
    split.
    + apply Qle_shift_div_l; [reflexivity | Lqa.lra].
    + apply Qlt_shift_div_r; [reflexivity | Lqa.lra].
  - rewrite map_map. apply map_ext. intros v.
    replace ((v + 2 ^ 30) * 4)%Z with (v * 4 + 1 * 2 ^ 32)%Z by ring.
    now rewrite wrap_int32_period.
  - repeat constructor.
Qed.

End ArmLaws.

Module PipelineLaws.

Lemma index_out_of_range {A : Type} (xs : list A) (i : Z) :
  (Z.of_nat (length xs) <= i)%Z -> Py.index xs i = Py.Raises Py.IndexError.
Proof.
  intros H. unfold Py.index.
  destruct (Z.ltb_spec i 0) as [C|_]; [lia|].
  destruct (Z.ltb_spec i (Z.of_nat (length xs))) as [C|_]; [lia|].
  now rewrite andb_false_r.
Qed.

Lemma index_in_range {A : Type} (xs : list A) (i : Z) :
  (0 <= i < Z.of_nat (length xs))%Z ->
  exists x, Py.index xs i = Py.Returns x /\ In x xs.
Proof.
  intros H.
  destruct (nth_error xs (Z.to_nat i)) as [x|] eqn:E.
  - exists x. split; [|eapply nth_error_In; exact E].
    rewrite <- (Z2Nat.id i) by lia. now apply PipelineFacts.index_nth_error.
  - apply nth_error_None in E. lia.
Qed.


Section Libraries.

Variable scipy_sos : Z -> npfloat -> npfloat -> Py.outcome sos_array.
Variable sosfilt : sos_array -> list Q -> Py.outcome (list Q).
Variable arm_biquad_cascade_df1_q31 :
  Arm.arm_biquad_casd_df1_inst_q31 -> list Q -> list Z.

(** The design loop cannot get past a band whose upper edge is missing. *)
Lemma design_stops_short (bands : list Z) :
  forall self i,
    In i bands -> (0 <= i)%Z ->
    (Z.of_nat (length (edges self)) <= i + 1)%Z ->
    exists e, design_bands scipy_sos bands self = Py.Raises e.
Proof.
  induction bands as [|h rest IH]; intros self i Hin Hi Hlen; [contradiction|].
  cbn [design_bands].
  destruct (Py.index (edges self) h) as [lo|e] eqn:Elo; cbn [Py.bind];
    [|eexists; reflexivity].
  destruct (Py.index (edges self) (h + 1)) as [hi|e] eqn:Ehi; cbn [Py.bind];
    [|eexists; reflexivity].
  destruct Hin as [-> | Hin].
  - rewrite index_out_of_range in Ehi by lia. discriminate.
  - destruct (butter_bandpass scipy_sos lo hi (fs self) h NUMSTAGES) as [sos|e];
      cbn [Py.bind]; [|eexists; reflexivity].
    destruct (Quantizer.quantize sos 15) as [qs|e]; cbn [Py.bind];
      [|eexists; reflexivity].
    apply (IH _ i Hin Hi). exact Hlen.
Qed.

Lemma short_plan_has_bad_band (n : nat) :
  (n < 7)%nat ->
  exists i, In i (Py.range 0 NUM_BANDS) /\ (0 <= i)%Z /\ (Z.of_nat n <= i + 1)%Z.
Proof.
  intros Hn. change (Py.range 0 NUM_BANDS) with [0; 1; 2; 3; 4; 5]%Z.
  destruct n as [|[|[|[|[|[|[|n]]]]]]]; [| | | | | | | lia].
  - exists 0%Z. cbn; intuition lia.
  - exists 0%Z. cbn; intuition lia.
  - exists 1%Z. cbn; intuition lia.
  - exists 2%Z. cbn; intuition lia.
  - exists 3%Z. cbn; intuition lia.
  - exists 4%Z. cbn; intuition lia.
  - exists 5%Z. cbn; intuition lia.
Qed.

(** X15: the design step needs [NUM_BANDS + 1] edges.  With fewer than
    seven edges in the object it never returns, whatever scipy does, and
    with fewer than two it raises [IndexError] at once. *)
Theorem design_needs_seven_edges (self : SignalProcessor) :
  (length (edges self) < 7)%nat ->
  (exists e, plot_bandpass_filter_response scipy_sos self = Py.Raises e) /\
  ((length (edges self) < 2)%nat ->
   plot_bandpass_filter_response scipy_sos self = Py.Raises Py.IndexError).
Proof.
  intros Hlen. split.
  - destruct (short_plan_has_bad_band _ Hlen) as (i & Hin & Hi & Hle).
    now apply (design_stops_short _ self i).
  - intros Hlen2. unfold plot_bandpass_filter_response.
    change (Py.range 0 NUM_BANDS) with [0; 1; 2; 3; 4; 5]%Z.
    cbn [design_bands].
    destruct (edges self) as [|a [|b l]]; [reflexivity | reflexivity | simpl in Hlen2; lia].
Qed.

(** X16: planning with [NUM_BANDS] bands or fewer, as the band count
    itself suggests, leaves the design step without its last edge: where
    the centers are within the range of numpy's logarithm the planner
    returns, and the design raises.  This is why the main program plans
    with [NUM_BANDS + 1]. *)
Theorem too_few_bands_break_design (self : SignalProcessor) (base : pynumber) (n : Z) :
  (n <= NUM_BANDS)%Z ->
  Planner.within_range base n ->
  exists self' plan e,
    Planner.calculate_centers self base n = Py.Returns (self', plan) /\
    plot_bandpass_filter_response scipy_sos self' = Py.Raises e.
Proof.
  intros Hn Hr. set (f := value base).
  assert (Hlen : (length (Planner.fill_edges (Planner.octave_centers f n)) < 7)%nat).
  { rewrite PlannerFacts.fill_edges_length, PlannerFacts.octave_centers_length.
    unfold NUM_BANDS in Hn. lia. }
  destruct (short_plan_has_bad_band _ Hlen) as (i & Hin & Hi & Hle).
  destruct (design_stops_short (Py.range 0 NUM_BANDS)
              (with_plan self (Planner.octave_centers f n)
                         (Planner.fill_edges (Planner.octave_centers f n)))
              i Hin Hi Hle) as (e & He).
  eexists. eexists. exists e.
  split; [apply (PlannerFacts.calculate_centers_returns self base n Hr) | exact He].
Qed.

(** The float path stops at the first cascade that [sosfilt] refuses. *)
Lemma filter_each_raises (v : list Q) (pre : list sos_array) (ys : list (list Q)) :
  Forall2 (fun sos y => sosfilt sos v = Py.Returns y) pre ys ->
  forall sos rest e,
    sosfilt sos v = Py.Raises e ->
    filter_each sosfilt (pre ++ sos :: rest) (Some v) = Py.Raises e.
Proof.
  induction 1 as [|s y pre ys Hy _ IH]; intros sos rest e He; cbn [app filter_each].
  - now rewrite He.
  - rewrite Hy. cbn [Py.bind]. now rewrite (IH sos rest e He).
Qed.

(** X19: the float path filters every cascade the object holds.  With no
    cascade it raises [IndexError].  With a signal, when [sosfilt] returns
    for every stored cascade and there is at least one, the path returns
    the filtered bands, one per cascade, in order; and the exception of the
    first cascade that [sosfilt] refuses is the exception of the path. *)
Theorem python_path_filters_all (self : SignalProcessor) :
  (sos_list self = [] ->
   apply_filters_and_print_python sosfilt self = Py.Raises Py.IndexError) /\
  (forall v, input_signal self = Some v ->
     (forall ys,
        sos_list self <> [] ->
        Forall2 (fun sos y => sosfilt sos v = Py.Returns y) (sos_list self) ys ->
        apply_filters_and_print_python sosfilt self = Py.Returns ys) /\
     (forall pre sos rest ys e,
        sos_list self = pre ++ sos :: rest ->
        Forall2 (fun sos y => sosfilt sos v = Py.Returns y) pre ys ->
        sosfilt sos v = Py.Raises e ->
        apply_filters_and_print_python sosfilt self = Py.Raises e)).
Proof.
  unfold apply_filters_and_print_python. split.
  - intros Hs. rewrite Hs. reflexivity.
  - intros v Hin. rewrite Hin. split.
    + intros ys Hne Hall.
      rewrite (PipelineFacts.filter_each_spec sosfilt _ v ys Hall). cbn [Py.bind].
      destruct Hall as [|sos y cascades ys Hy Hall]; [contradiction|reflexivity].
    + intros pre sos rest ys e Hs Hpre He.
      rewrite Hs, (filter_each_raises v pre ys Hpre sos rest e He). reflexivity.
Qed.

Lemma filter_bands_ARM_last (bands : list Z) :
  forall self acc self' ys,
    filter_bands_ARM arm_biquad_cascade_df1_q31 bands self acc = Py.Returns (self', ys) ->
    bands <> [] ->
    exists sos,
      Py.index (sos_list self) (last bands 0%Z) = Py.Returns sos /\
      Quantizer.quantize sos (NUMSTAGES * 5) = Py.Returns (coefs self').
Proof.
  induction bands as [|i rest IH]; intros self acc self' ys Hrun Hne; [contradiction|].
  cbn [filter_bands_ARM] in Hrun.
  destruct (Py.index (sos_list self) i) as [sos|] eqn:Esos; cbn [Py.bind] in Hrun;
    [|discriminate].
  destruct (Quantizer.quantize sos (NUMSTAGES * 5)) as [qs|] eqn:Eqs;
    cbn [Py.bind] in Hrun; [|discriminate].
  change (input_signal (with_coefs self qs)) with (input_signal self) in Hrun.
  destruct (input_signal self) as [v|]; cbn [Py.bind] in Hrun; [|discriminate].
  destruct rest as [|j rest'].
  - cbn [filter_bands_ARM] in Hrun. injection Hrun as <- _.
    exists sos. split; [exact Esos | exact Eqs].
  - apply IH in Hrun; [|discriminate].
    exact Hrun.
Qed.

(** X20: the fixed-point path takes the first [NUM_BANDS] cascades and no
    more.  When the object holds six well-formed cascades followed by any
    others, it returns six bands, band [i] made from cascade [i], whatever
    the others are; afterwards [self.coefs] holds the Q31 coefficients of
    the sixth cascade only. *)
Theorem ARM_path_uses_first_six (self : SignalProcessor) (v : list Q)
    (six extra : list sos_array) :
  input_signal self = Some v ->
  sos_list self = six ++ extra ->
  length six = 6%nat ->
  Forall Quantizer.well_formed six ->
  exists self' signal_ARM,
    apply_filters_and_print_ARM arm_biquad_cascade_df1_q31 self
    = Py.Returns (self', signal_ARM) /\
    Forall2 (band_signal_ARM arm_biquad_cascade_df1_q31 v) six signal_ARM /\
    sos_list self' = sos_list self /\
    Quantizer.quantize (last six []) (NUMSTAGES * 5) = Py.Returns (coefs self').
Proof.
  intros Hin Hs Hlen Hwf.
  destruct six as [|s0 [|s1 [|s2 [|s3 [|s4 [|s5 [|s6 six]]]]]]]; try discriminate.
  inversion_clear Hwf as [|? ? W0 Hwf1]. inversion_clear Hwf1 as [|? ? W1 Hwf2].
  inversion_clear Hwf2 as [|? ? W2 Hwf3]. inversion_clear Hwf3 as [|? ? W3 Hwf4].
  inversion_clear Hwf4 as [|? ? W4 Hwf5]. inversion_clear Hwf5 as [|? ? W5 _].
  assert (Hok : Forall (fun i => exists sos,
                          Py.index (sos_list self) i = Py.Returns sos /\
                          Quantizer.well_formed sos) (Py.range 0 NUM_BANDS)).
  { change (Py.range 0 NUM_BANDS) with [0; 1; 2; 3; 4; 5]%Z. rewrite Hs.
    assert (Hidx : forall k (s : sos_array),
              nth_error ([s0; s1; s2; s3; s4; s5] ++ extra) k = Some s ->
              Quantizer.well_formed s ->
              exists sos,
                Py.index ([s0; s1; s2; s3; s4; s5] ++ extra) (Z.of_nat k) = Py.Returns sos /\
                Quantizer.well_formed sos).
    { intros k s Hk Hw. exists s. split; [now apply PipelineFacts.index_nth_error | exact Hw]. }
    repeat constructor;
      [apply (Hidx 0%nat s0) | apply (Hidx 1%nat s1) | apply (Hidx 2%nat s2)
       | apply (Hidx 3%nat s3) | apply (Hidx 4%nat s4) | apply (Hidx 5%nat s5)];
      try reflexivity; assumption. }
  destruct (PipelineFacts.filter_bands_ARM_spec arm_biquad_cascade_df1_q31 v _ self [] Hin Hok)
    as (self' & new & Hrun & Hsl & _ & _ & Hnew).
  pose proof (filter_bands_ARM_last _ _ _ _ _ Hrun) as Hlast.
  change (Py.range 0 NUM_BANDS) with [0; 1; 2; 3; 4; 5]%Z in Hnew, Hlast.
  destruct Hlast as (sosl & Hidx & Hq); [discriminate|].
  cbn [last] in Hidx. rewrite Hs in Hidx.
  pose proof (PipelineFacts.index_nth_error
                ([s0; s1; s2; s3; s4; s5] ++ extra) 5%nat s5 eq_refl) as H5.
  change (Z.of_nat 5) with 5%Z in H5. rewrite H5 in Hidx.
  injection Hidx as <-.
  rewrite Hs in Hnew.
  inversion Hnew as [|? y0 ? ? A0 Hn1]; subst; clear Hnew.
  inversion Hn1 as [|? y1 ? ? A1 Hn2]; subst; clear Hn1.
  inversion Hn2 as [|? y2 ? ? A2 Hn3]; subst; clear Hn2.
  inversion Hn3 as [|? y3 ? ? A3 Hn4]; subst; clear Hn3.
  inversion Hn4 as [|? y4 ? ? A4 Hn5]; subst; clear Hn4.
  inversion Hn5 as [|? y5 ? ? A5 Hn6]; subst; clear Hn5.
  inversion Hn6; subst; clear Hn6.
  exists self', [y0; y1; y2; y3; y4; y5].
  split; [|split; [|split; [exact Hsl | exact Hq]]].
  - unfold apply_filters_and_print_ARM. rewrite Hrun. reflexivity.
  - assert (Hpick : forall k (s : sos_array) y,
              nth_error ([s0; s1; s2; s3; s4; s5] ++ extra) k = Some s ->
              (exists sos,
                 Py.index ([s0; s1; s2; s3; s4; s5] ++ extra) (Z.of_nat k) = Py.Returns sos /\
                 band_signal_ARM arm_biquad_cascade_df1_q31 v sos y) ->
              band_signal_ARM arm_biquad_cascade_df1_q31 v s y).
    { intros k s y Hk (sos & Hidx & Hy).
      rewrite (PipelineFacts.index_nth_error _ k s Hk) in Hidx. congruence. }
    repeat constructor;
      [apply (Hpick 0%nat) | apply (Hpick 1%nat) | apply (Hpick 2%nat)
       | apply (Hpick 3%nat) | apply (Hpick 4%nat) | apply (Hpick 5%nat)];
      try reflexivity; assumption.
Qed.

(** The loop of the fixed-point path stops with [IndexError] at the first
    band that has no cascade. *)
Lemma filter_bands_ARM_short (v : list Q) (bands : list Z) :
  forall self acc i,
    input_signal self = Some v ->
    Forall Quantizer.well_formed (sos_list self) ->
    Forall (fun j => (0 <= j)%Z) bands ->
    In i bands -> (Z.of_nat (length (sos_list self)) <= i)%Z ->
    filter_bands_ARM arm_biquad_cascade_df1_q31 bands self acc
    = Py.Raises Py.IndexError.
Proof.
  induction bands as [|h rest IH]; intros self acc i Hin Hwf Hpos Hi Hlen;
    [contradiction|].
  inversion_clear Hpos as [|? ? Hh Hrest].
  cbn [filter_bands_ARM].
  destruct (Z_lt_le_dec h (Z.of_nat (length (sos_list self)))) as [Hlt | Hge].
  - destruct (index_in_range (sos_list self) h) as (sos & Hidx & Hmem); [lia|].
    rewrite Hidx. cbn [Py.bind].
    assert (Hsos : Quantizer.well_formed sos)
      by (rewrite Forall_forall in Hwf; now apply Hwf).
    rewrite (QuantizerFacts.quantize_returns sos Hsos). cbn [Py.bind].
    change (input_signal (with_coefs self _)) with (input_signal self).
    rewrite Hin. cbn [Py.bind].
    destruct Hi as [-> | Hi]; [lia|].
    now apply (IH _ _ i).
  - now rewrite index_out_of_range.
Qed.

(** X21: the fixed-point path needs [NUM_BANDS] cascades: with a signal
    and fewer than six cascades, all well-formed, it raises [IndexError]. *)
Theorem ARM_path_needs_six (self : SignalProcessor) (v : list Q) :
  input_signal self = Some v ->
  Forall Quantizer.well_formed (sos_list self) ->
  (length (sos_list self) < 6)%nat ->
  apply_filters_and_print_ARM arm_biquad_cascade_df1_q31 self
  = Py.Raises Py.IndexError.
Proof.
  intros Hin Hwf Hlen. unfold apply_filters_and_print_ARM.
  rewrite (filter_bands_ARM_short v _ self []
             (Z.of_nat (length (sos_list self))) Hin Hwf); [reflexivity | | | lia].
  - change (Py.range 0 NUM_BANDS) with [0; 1; 2; 3; 4; 5]%Z.
    repeat constructor; lia.
  - change (Py.range 0 NUM_BANDS) with [0; 1; 2; 3; 4; 5]%Z.
    destruct (length (sos_list self)) as [|[|[|[|[|[|n]]]]]]; cbn; try lia; intuition lia.
Qed.

(** X22: what stops the first turn of the fixed-point loop: a first
    cascade that does not flatten to fifteen coefficients raises
    [ValueError], and a well-formed first cascade with no signal in the
    object raises [TypeError]. *)
Theorem ARM_path_first_turn (self : SignalProcessor) (sos : sos_array)
    (rest : list sos_array) :
  sos_list self = sos :: rest ->
  (length (Quantizer.coefficients sos) <> 15%nat ->
   apply_filters_and_print_ARM arm_biquad_cascade_df1_q31 self
   = Py.Raises Py.ValueError) /\
  (Quantizer.well_formed sos -> input_signal self = None ->
   apply_filters_and_print_ARM arm_biquad_cascade_df1_q31 self
   = Py.Raises Py.TypeError).
Proof.
  intros Hs. unfold apply_filters_and_print_ARM.
  change (Py.range 0 NUM_BANDS) with [0; 1; 2; 3; 4; 5]%Z.
  cbn [filter_bands_ARM]. rewrite Hs.
  change (Py.index (sos :: rest) 0) with (Py.Returns sos). cbn [Py.bind].
  split.
  - intros Hshape. unfold Quantizer.quantize, Quantizer.reshape.
    fold (Quantizer.coefficients sos).
    destruct (Z.eqb_spec (Z.of_nat (length (Quantizer.coefficients sos))) (NUMSTAGES * 5))
      as [E|_]; [|reflexivity].
    exfalso. apply Hshape. change (NUMSTAGES * 5)%Z with 15%Z in E. lia.
  - intros Hwf Hnone.
    rewrite (QuantizerFacts.quantize_returns sos Hwf). cbn [Py.bind].
    change (input_signal (with_coefs self _)) with (input_signal self).
    rewrite Hnone. reflexivity.
Qed.

End Libraries.

Section Designer.

Variable scipy_sos : Z -> npfloat -> npfloat -> Py.outcome sos_array.

Hypothesis scipy_designs :
  forall low high,
    valid_cutoffs low high ->
    exists sos, scipy_sos NUMSTAGES low high = Py.Returns sos /\ Quantizer.well_formed sos.

Lemma designed_all (self : SignalProcessor) (bands : list Z) (new : list sos_array) :
  Forall2 (designed scipy_sos self) bands new ->
  length new = length bands /\ Forall Quantizer.well_formed new.
Proof.
  induction 1 as [|i sos bands new [Hwf _] _ [IHl IHw]]; [split; constructor|].
  split; [simpl; now rewrite IHl | now constructor].
Qed.

(** X17: the design step adds to what is there.  When all six bands of
    the plan in the object can be designed, it appends exactly six
    well-formed cascades to [self.sos_list], keeps the cascades that were
    already in it, and changes nothing else in the object. *)
Theorem design_appends_six (self : SignalProcessor) :
  Forall (band_ok self) (Py.range 0 NUM_BANDS) ->
  exists new,
    plot_bandpass_filter_response scipy_sos self
    = Py.Returns (with_sos_list self (sos_list self ++ new)) /\
    length new = 6%nat /\
    Forall Quantizer.well_formed new.
Proof.
  intros Hok.
  destruct (PipelineFacts.design_bands_spec scipy_sos scipy_designs _ self Hok)
    as (new & Hrun & Hnew).
  exists new. split; [exact Hrun|].
  destruct (designed_all _ _ _ Hnew) as [Hl Hw]. split; [exact Hl | exact Hw].
Qed.


End Designer.

Lemma sample_designer_designs :
  forall low high,
    valid_cutoffs low high ->
    exists sos, sample_designer NUMSTAGES low high = Py.Returns sos /\
                Quantizer.well_formed sos.
Proof.
  intros low high _. exists sample_sos.
  split; [reflexivity | exact QuantizerFacts.sample_sos_well_formed].
Qed.

Lemma planned_processor_ok : Forall (band_ok planned_processor) (Py.range 0 NUM_BANDS).
Proof.
  change (Py.range 0 NUM_BANDS) with [0; 1; 2; 3; 4; 5]%Z.
  repeat constructor; eexists; eexists;
    (split; [reflexivity | split; [reflexivity | apply PipelineFacts.cutoffs_valid; lra]]).
Qed.

Lemma design_needs_seven_edges_witness :
  (length (edges init) < 7)%nat /\
  plot_bandpass_filter_response sample_designer init = Py.Raises Py.IndexError.
Proof.
  assert (H : (length (edges init) < 7)%nat) by (simpl; lia).
  split; [exact H|].
  apply (proj2 (design_needs_seven_edges sample_designer init H)). simpl; lia.
Defined.

Lemma too_few_bands_break_design_witness :
  (6 <= NUM_BANDS)%Z /\
  Planner.within_range (PyInt 100) 6 /\
  exists self' plan e,
    Planner.calculate_centers init (PyInt 100) 6 = Py.Returns (self', plan) /\
    plot_bandpass_filter_response sample_designer self' = Py.Raises e.
Proof.
  assert (H : (6 <= NUM_BANDS)%Z) by (unfold NUM_BANDS; lia).
  assert (Hr : Planner.within_range (PyInt 100) 6) by (cbn; lia).
  split; [exact H|]. split; [exact Hr|].
  exact (too_few_bands_break_design sample_designer init (PyInt 100) 6 H Hr).
Defined.

Lemma design_appends_six_witness :
  Forall (band_ok planned_processor) (Py.range 0 NUM_BANDS) /\
  exists new,
    plot_bandpass_filter_response sample_designer planned_processor
    = Py.Returns (with_sos_list planned_processor (sos_list planned_processor ++ new)) /\
    length new = 6%nat /\
    Forall Quantizer.well_formed new.
Proof.
  split; [exact planned_processor_ok|].
  exact (design_appends_six sample_designer sample_designer_designs
           planned_processor planned_processor_ok).
Defined.


Lemma python_path_filters_all_witness :
  input_signal (cascaded_processor [sample_sos; loud_sos]) = Some sample_signal /\
  sos_list (cascaded_processor [sample_sos; loud_sos]) <> [] /\
  apply_filters_and_print_python sample_sosfilt (cascaded_processor [sample_sos; loud_sos])
  = Py.Returns [sample_signal; sample_signal].
Proof.
  assert (Hne : sos_list (cascaded_processor [sample_sos; loud_sos]) <> [])
    by discriminate.
  split; [reflexivity|]. split; [exact Hne|].
  apply (proj1 (proj2 (python_path_filters_all sample_sosfilt
                         (cascaded_processor [sample_sos; loud_sos]))
                      sample_signal eq_refl)
               [sample_signal; sample_signal] Hne).
  repeat constructor.
Defined.

Lemma six_samples_well_formed : Forall Quantizer.well_formed (repeat sample_sos 6).
Proof. repeat constructor. Qed.

Lemma ARM_path_uses_first_six_witness :
  input_signal (cascaded_processor (repeat sample_sos 6 ++ [loud_sos])) = Some sample_signal /\
  Forall Quantizer.well_formed (repeat sample_sos 6) /\
  exists self' signal_ARM,
    apply_filters_and_print_ARM sample_engine
      (cascaded_processor (repeat sample_sos 6 ++ [loud_sos]))
    = Py.Returns (self', signal_ARM) /\
    Forall2 (band_signal_ARM sample_engine sample_signal) (repeat sample_sos 6) signal_ARM.
Proof.
  split; [reflexivity|]. split; [exact six_samples_well_formed|].
  destruct (ARM_path_uses_first_six sample_engine
              (cascaded_processor (repeat sample_sos 6 ++ [loud_sos]))
              sample_signal (repeat sample_sos 6) [loud_sos]
              eq_refl eq_refl eq_refl six_samples_well_formed)
    as (self' & ys & Hrun & Hbands & _).
  exists self', ys. split; assumption.
Defined.

Lemma ARM_path_needs_six_witness :
  input_signal (cascaded_processor [sample_sos]) = Some sample_signal /\
  Forall Quantizer.well_formed (sos_list (cascaded_processor [sample_sos])) /\
  (length (sos_list (cascaded_processor [sample_sos])) < 6)%nat /\
  apply_filters_and_print_ARM sample_engine (cascaded_processor [sample_sos])
  = Py.Raises Py.IndexError.
Proof.
  assert (Hw : Forall Quantizer.well_formed (sos_list (cascaded_processor [sample_sos])))
    by (repeat constructor).
  assert (Hl : (length (sos_list (cascaded_processor [sample_sos])) < 6)%nat)
    by (simpl; lia).
  split; [reflexivity|]. split; [exact Hw|]. split; [exact Hl|].
  exact (ARM_path_needs_six sample_engine (cascaded_processor [sample_sos])
           sample_signal eq_refl Hw Hl).
Defined.

Lemma ARM_path_first_turn_witness :
  sos_list (cascaded_processor [[[1; 0; 0; 1; 0; 0]%Q]]) = [[[1; 0; 0; 1; 0; 0]%Q]] /\
  apply_filters_and_print_ARM sample_engine (cascaded_processor [[[1; 0; 0; 1; 0; 0]%Q]])
  = Py.Raises Py.ValueError.
Proof.
  split; [reflexivity|].
  apply (proj1 (ARM_path_first_turn sample_engine
                  (cascaded_processor [[[1; 0; 0; 1; 0; 0]%Q]])
                  [[1; 0; 0; 1; 0; 0]%Q] [] eq_refl)).
  discriminate.
Defined.

End PipelineLaws.
